(** * QA-chatbot: the four-phase pipeline of [app/ui/streamlit_app.py]

    A shallow embedding of the router, the SQL phase, the retrieval phase,
    the composer and the orchestrator, together with the helpers they use
    ([safe_json_loads], [format_citations], [get_connection]) and a model of
    the Python library functions they call ([str.strip], [str.find],
    [json.loads], [float]).

    Python values are an inductive type, Python [str] is a list of Unicode
    code points, and the three external collaborators (the text-generation
    backend, the SQLite store and the vector index) are the variables of a
    section.  Effects are kept in a small monad that records every call to a
    collaborator and threads Python exceptions.

    The backend and the index are total functions: a call that fails
    (timeout, connection error), which the code lets propagate to the
    caller of [run_pipeline], is outside the model, and so is a row value
    that [json.dumps] cannot serialise.  What is proved of a run is
    therefore stated of the calls it makes and of the result it returns,
    never that it returns.  Floats are exact rationals, without rounding,
    underflow or overflow. *)

From Stdlib Require Import List ZArith NArith QArith Bool Lia Ascii String.
From Stdlib Require Import DecimalString.
Import ListNotations.

Set Warnings "-register-all".

(** ** Python strings *)

Module PyStr.

(** A Python [str] is a sequence of code points. *)
Definition pystr := list N.

Definition txt (s : string) : pystr :=
  map N_of_ascii (list_ascii_of_string s).

Definition eqb (a b : pystr) : bool :=
  if list_eq_dec N.eq_dec a b then true else false.

(** [str.isspace] on one code point: the characters removed by
    [str.strip()]. *)
Definition isspace (c : N) : bool :=
  ((9 <=? c) && (c <=? 13) || (28 <=? c) && (c <=? 32)
   || (c =? 133) || (c =? 160) || (c =? 5760)
   || (8192 <=? c) && (c <=? 8202)
   || (c =? 8232) || (c =? 8233) || (c =? 8239) || (c =? 8287)
   || (c =? 12288))%N.

Fixpoint lstrip (s : pystr) : pystr :=
  match s with
  | c :: r => if isspace c then lstrip r else s
  | [] => []
  end.

Definition rstrip (s : pystr) : pystr := rev (lstrip (rev s)).

(** [s.strip()] *)
Definition strip (s : pystr) : pystr := rstrip (lstrip s).

(** [s.find(c)] for a one-character needle: the first index, or -1. *)
Fixpoint find (c : N) (s : pystr) : Z :=
  match s with
  | [] => -1
  | x :: r =>
      if (x =? c)%N then 0
      else let i := find c r in if (i =? -1)%Z then -1 else (i + 1)%Z
  end.

(** [s.rfind(c)]: the last index, or -1. *)
Fixpoint rfind (c : N) (s : pystr) : Z :=
  match s with
  | [] => -1
  | x :: r =>
      let i := rfind c r in
      if (i =? -1)%Z then (if (x =? c)%N then 0 else -1) else (i + 1)%Z
  end.

(** [s[a:b]] for non-negative bounds. *)
Definition slice (s : pystr) (a b : Z) : pystr :=
  firstn (Z.to_nat (b - a)) (skipn (Z.to_nat a) s).

(** [sep.join(parts)] *)
Fixpoint join (sep : pystr) (parts : list pystr) : pystr :=
  match parts with
  | [] => []
  | [p] => p
  | p :: rest => p ++ sep ++ join sep rest
  end.

(** The line feed. *)
Definition nl : pystr := [10%N].

(** [str(n)] for an integer. *)
Definition of_Z (z : Z) : pystr := txt (NilZero.string_of_int (Z.to_int z)).

(** A text literal in which every apostrophe stands for a double quote:
    [dq "{'a': 1}"] is the text [{"a": 1}]. *)
Definition dq (s : string) : pystr :=
  map (fun c => if (c =? 39)%N then 34%N else c) (txt s).

Definition mem (s : pystr) (l : list pystr) : bool := existsb (eqb s) l.

End PyStr.

Import PyStr.
Coercion txt : string >-> pystr.

Open Scope string_scope.
Open Scope list_scope.
Open Scope Z_scope.

(** ** Python values *)

(** A Python float: a finite value, kept exact, or one of the three special
    values.  Binary rounding is not modelled; the development only tests a
    float against zero and compares it with 0 and 1. *)
Inductive pyfloat :=
| Fin (q : Q)
| NaN
| PosInf
| NegInf.

Inductive pyval :=
| PNone
| PBool (b : bool)
| PInt (z : Z)
| PFloat (f : pyfloat)
| PStr (s : pystr)
| PList (l : list pyval)
| PDict (d : list (pystr * pyval)).

(** A [dict] keeps its keys in insertion order; assigning to an existing key
    replaces the value in place. *)
Definition pydict := list (pystr * pyval).

Fixpoint dict_set (k : pystr) (v : pyval) (d : pydict) : pydict :=
  match d with
  | [] => [(k, v)]
  | (k', v') :: r =>
      if PyStr.eqb k' k then (k, v) :: r else (k', v') :: dict_set k v r
  end.

(** [dict(pairs)] *)
Definition dict_of_pairs (pairs : list (pystr * pyval)) : pydict :=
  fold_left (fun d kv => dict_set (fst kv) (snd kv) d) pairs [].

Fixpoint dict_lookup (k : pystr) (d : pydict) : option pyval :=
  match d with
  | [] => None
  | (k', v) :: r => if PyStr.eqb k' k then Some v else dict_lookup k r
  end.

(** [d.get(k, default)] and [d.get(k)] *)
Definition dict_get (d : pydict) (k : pystr) (default : pyval) : pyval :=
  match dict_lookup k d with Some v => v | None => default end.

Definition dict_get1 (d : pydict) (k : pystr) : pyval := dict_get d k PNone.

Definition float_truthy (f : pyfloat) : bool :=
  match f with
  | Fin q => negb (Qeq_bool q 0)
  | _ => true
  end.

(** [bool(v)] *)
Definition truthy (v : pyval) : bool :=
  match v with
  | PNone => false
  | PBool b => b
  | PInt z => negb (z =? 0)
  | PFloat f => float_truthy f
  | PStr s => match s with [] => false | _ => true end
  | PList l => match l with [] => false | _ => true end
  | PDict d => match d with [] => false | _ => true end
  end.

(** [a or b] *)
Definition py_or (a b : pyval) : pyval := if truthy a then a else b.

(** [v == s] for a string [s]: only a [str] equals a [str]. *)
Definition eq_str (v : pyval) (s : pystr) : bool :=
  match v with
  | PStr t => PyStr.eqb t s
  | _ => false
  end.

(** [v in (s1, ..., sn)] for a tuple of strings. *)
Definition in_strs (v : pyval) (l : list pystr) : bool :=
  existsb (eq_str v) l.

(** [0 <= f <= 1] *)
Definition in_unit_interval (f : pyfloat) : bool :=
  match f with
  | Fin q => Qle_bool 0 q && Qle_bool q 1
  | _ => false
  end.

(** ** Python exceptions *)

Inductive exn :=
| ValueError
| TypeError
| OverflowError
| SqliteError (msg : pystr).

Inductive result (A : Type) :=
| Ok (a : A)
| Raise (e : exn).

Arguments Ok {A} a.
Arguments Raise {A} e.

(** ** The library decoder [json.loads]

    Python's [json] scanner: objects, arrays, strings with escapes, numbers
    ([int] without fraction or exponent, [float] otherwise), the literals
    [null], [true], [false] and the non-standard [NaN], [Infinity] and
    [-Infinity].  A decoding error is [None].  The interpreter's limits
    (recursion depth, the length of an integer literal) are not modelled. *)

Module Json.

Definition is_ws (c : N) : bool :=
  ((c =? 32) || (c =? 9) || (c =? 10) || (c =? 13))%N.

Fixpoint skip_ws (s : pystr) : pystr :=
  match s with
  | c :: r => if is_ws c then skip_ws r else s
  | [] => []
  end.

Definition is_digit (c : N) : bool := ((48 <=? c) && (c <=? 57))%N.

Definition hexval (c : N) : option N :=
  if is_digit c then Some (c - 48)%N
  else if ((97 <=? c) && (c <=? 102))%N then Some (c - 87)%N
  else if ((65 <=? c) && (c <=? 70))%N then Some (c - 55)%N
  else None.

Definition decode_uXXXX (h1 h2 h3 h4 : N) : option N :=
  match hexval h1, hexval h2, hexval h3, hexval h4 with
  | Some a, Some b, Some c, Some d =>
      Some (((a * 16 + b) * 16 + c) * 16 + d)%N
  | _, _, _, _ => None
  end.

(** The one-character escapes of [BACKSLASH]. *)
Definition backslash (e : N) : option N :=
  (if e =? 34 then Some 34
   else if e =? 92 then Some 92
   else if e =? 47 then Some 47
   else if e =? 98 then Some 8
   else if e =? 102 then Some 12
   else if e =? 110 then Some 10
   else if e =? 114 then Some 13
   else if e =? 116 then Some 9
   else None)%N.

Definition is_high_surrogate (u : N) : bool :=
  ((55296 <=? u) && (u <=? 56319))%N.
Definition is_low_surrogate (u : N) : bool :=
  ((56320 <=? u) && (u <=? 57343))%N.

(** [scanstring] in strict mode, from the character after the opening
    quote; returns the decoded string and the text after the closing
    quote. *)
Fixpoint scanstring (s : pystr) (acc : pystr) : option (pystr * pystr) :=
  match s with
  | [] => None
  | c :: r =>
      if (c =? 34)%N then Some (rev acc, r)
      else if (c =? 92)%N then
        match r with
        | [] => None
        | e :: r1 =>
            if (e =? 117)%N then
              match r1 with
              | h1 :: h2 :: h3 :: h4 :: r5 =>
                  match decode_uXXXX h1 h2 h3 h4 with
                  | None => None
                  | Some uni =>
                      match r5 with
                      | b :: u :: g1 :: g2 :: g3 :: g4 :: r11 =>
                          if is_high_surrogate uni && (b =? 92)%N
                             && (u =? 117)%N
                          then
                            match decode_uXXXX g1 g2 g3 g4 with
                            | None => None
                            | Some uni2 =>
                                if is_low_surrogate uni2
                                then scanstring r11
                                       ((65536 + ((uni - 55296) * 1024
                                                  + (uni2 - 56320)))%N :: acc)
                                else scanstring r5 (uni :: acc)
                            end
                          else scanstring r5 (uni :: acc)
                      | _ => scanstring r5 (uni :: acc)
                      end
                  end
              | _ => None
              end
            else
              match backslash e with
              | Some ch => scanstring r1 (ch :: acc)
              | None => None
              end
        end
      else if (c <? 32)%N then None
      else scanstring r (c :: acc)
  end.

Fixpoint take_digits (s : pystr) : pystr * pystr :=
  match s with
  | c :: r =>
      if is_digit c then let (ds, rest) := take_digits r in (c :: ds, rest)
      else ([], s)
  | [] => ([], [])
  end.

Definition digits_value (ds : pystr) : Z :=
  fold_left (fun a d => 10 * a + Z.of_N (d - 48)) ds 0.

(** The value of the decimal literal [m * 10^e]. *)
Definition decimal (m e : Z) : pyfloat :=
  Fin (Qred (inject_Z m * Qpower (10 # 1) e)).

(** [NUMBER_RE]: an optional minus sign and an integer part (a single 0, or
    a non-zero digit followed by digits); then, each optional, a fraction
    (a dot and at least one digit) and an exponent (e or E, an optional
    sign, at least one digit).  A group that does not match completely
    consumes nothing. *)
Definition match_number (s : pystr) : option (pyval * pystr) :=
  let (neg, s1) :=
    match s with
    | c :: r => if (c =? 45)%N then (true, r) else (false, s)
    | [] => (false, s)
    end in
  let integer :=
    match s1 with
    | d :: r =>
        if (d =? 48)%N then Some ([d], r)
        else if is_digit d
             then let (ds, rest) := take_digits r in Some (d :: ds, rest)
             else None
    | [] => None
    end in
  match integer with
  | None => None
  | Some (ids, s2) =>
      let (frac, s3) :=
        match s2 with
        | c :: r =>
            if (c =? 46)%N then
              match take_digits r with
              | ([], _) => (None, s2)
              | (fds, rest) => (Some fds, rest)
              end
            else (None, s2)
        | [] => (None, s2)
        end in
      let (exp, s4) :=
        match s3 with
        | c :: r =>
            if ((c =? 101) || (c =? 69))%N then
              let (eneg, r1) :=
                match r with
                | sg :: r' =>
                    if (sg =? 45)%N then (true, r')
                    else if (sg =? 43)%N then (false, r')
                    else (false, r)
                | [] => (false, r)
                end in
              match take_digits r1 with
              | ([], _) => (None, s3)
              | (eds, rest) =>
                  (Some (if eneg then - digits_value eds
                         else digits_value eds), rest)
              end
            else (None, s3)
        | [] => (None, s3)
        end in
      let sign (z : Z) := if neg then - z else z in
      match frac, exp with
      | None, None => Some (PInt (sign (digits_value ids)), s4)
      | _, _ =>
          let fds := match frac with Some f => f | None => [] end in
          let e := match exp with Some e => e | None => 0 end in
          Some (PFloat (decimal (sign (digits_value (ids ++ fds)))
                                (e - Z.of_nat (List.length fds))), s4)
      end
  end.

(** [s] starts with [p]: the rest of [s]. *)
Fixpoint strip_prefix (p s : pystr) : option pystr :=
  match p, s with
  | [], _ => Some s
  | a :: p', b :: s' => if (a =? b)%N then strip_prefix p' s' else None
  | _ :: _, [] => None
  end.

(** The branches of [scan_once] that are not a string, an object or an
    array, in the scanner's order. *)
Definition scan_atom (s : pystr) : option (pyval * pystr) :=
  match strip_prefix "null" s with
  | Some r => Some (PNone, r)
  | None =>
  match strip_prefix "true" s with
  | Some r => Some (PBool true, r)
  | None =>
  match strip_prefix "false" s with
  | Some r => Some (PBool false, r)
  | None =>
  match match_number s with
  | Some res => Some res
  | None =>
  match strip_prefix "NaN" s with
  | Some r => Some (PFloat NaN, r)
  | None =>
  match strip_prefix "Infinity" s with
  | Some r => Some (PFloat PosInf, r)
  | None =>
  match strip_prefix "-Infinity" s with
  | Some r => Some (PFloat NegInf, r)
  | None => None
  end end end end end end end.

Fixpoint scan_once (fuel : nat) (s : pystr) {struct fuel}
  : option (pyval * pystr) :=
  match fuel with
  | O => None
  | S fuel' =>
      match s with
      | [] => None
      | c :: r =>
          if (c =? 34)%N then
            match scanstring r [] with
            | Some (str, rest) => Some (PStr str, rest)
            | None => None
            end
          else if (c =? 123)%N then JSONObject fuel' r
          else if (c =? 91)%N then JSONArray fuel' r
          else scan_atom s
      end
  end

(** After the opening brace. *)
with JSONObject (fuel : nat) (s : pystr) {struct fuel}
  : option (pyval * pystr) :=
  match fuel with
  | O => None
  | S fuel' =>
      match skip_ws s with
      | c :: r =>
          if (c =? 125)%N then Some (PDict [], r)
          else if (c =? 34)%N then object_pairs fuel' r []
          else None
      | [] => None
      end
  end

(** The loop of [JSONObject], from the character after the opening quote
    of a key; [pairs] holds the pairs read so far, last first. *)
with object_pairs (fuel : nat) (s : pystr) (pairs : list (pystr * pyval))
  {struct fuel} : option (pyval * pystr) :=
  match fuel with
  | O => None
  | S fuel' =>
      match scanstring s [] with
      | None => None
      | Some (key, s1) =>
          match skip_ws s1 with
          | c :: s2 =>
              if negb (c =? 58)%N then None
              else
                match scan_once fuel' (skip_ws s2) with
                | None => None
                | Some (value, s3) =>
                    let pairs' := (key, value) :: pairs in
                    match skip_ws s3 with
                    | d :: s4 =>
                        if (d =? 125)%N
                        then Some (PDict (dict_of_pairs (rev pairs')), s4)
                        else if (d =? 44)%N then
                          match skip_ws s4 with
                          | q :: s5 =>
                              if (q =? 34)%N
                              then object_pairs fuel' s5 pairs'
                              else None
                          | [] => None
                          end
                        else None
                    | [] => None
                    end
                end
          | [] => None
          end
      end
  end

(** After the opening bracket. *)
with JSONArray (fuel : nat) (s : pystr) {struct fuel}
  : option (pyval * pystr) :=
  match fuel with
  | O => None
  | S fuel' =>
      match skip_ws s with
      | c :: r =>
          if (c =? 93)%N then Some (PList [], r)
          else array_items fuel' (c :: r) []
      | [] => None
      end
  end

(** The loop of [JSONArray]; [items] holds the values read so far, last
    first. *)
with array_items (fuel : nat) (s : pystr) (items : list pyval)
  {struct fuel} : option (pyval * pystr) :=
  match fuel with
  | O => None
  | S fuel' =>
      match scan_once fuel' s with
      | None => None
      | Some (value, s1) =>
          let items' := value :: items in
          match skip_ws s1 with
          | d :: s2 =>
              if (d =? 93)%N then Some (PList (rev items'), s2)
              else if (d =? 44)%N
                   then array_items fuel' (skip_ws s2) items'
                   else None
          | [] => None
          end
      end
  end.

(** [json.loads(s)]: leading whitespace, one value, trailing whitespace and
    nothing else.  Every level of nesting costs at most three units of
    fuel for each character it consumes, so the fuel below never runs
    out. *)
Definition loads (s : pystr) : option pyval :=
  match scan_once (3 * List.length s + 3) (skip_ws s) with
  | Some (v, rest) =>
      match skip_ws rest with
      | [] => Some v
      | _ => None
      end
  | None => None
  end.

End Json.

(** ** The built-in [float] *)

Module PyFloat.

Definition lower (c : N) : N :=
  if ((65 <=? c) && (c <=? 90))%N then (c + 32)%N else c.

(** A run of digits in which single underscores may separate digits. *)
Fixpoint digitpart (s : pystr) : pystr * pystr :=
  match s with
  | c :: r =>
      if Json.is_digit c then
        match r with
        | u :: ((d :: _) as r') =>
            if (u =? 95)%N && Json.is_digit d
            then let (ds, rest) := digitpart r' in (c :: ds, rest)
            else let (ds, rest) := digitpart r in (c :: ds, rest)
        | _ => let (ds, rest) := digitpart r in (c :: ds, rest)
        end
      else ([], s)
  | [] => ([], [])
  end.

(** The exponent of a float literal: nothing, or e/E, an optional sign and
    digits up to the end of the text. *)
Definition exponent (s : pystr) : option Z :=
  match s with
  | [] => Some 0
  | c :: r =>
      if ((c =? 101) || (c =? 69))%N then
        let (eneg, r1) :=
          match r with
          | sg :: r' =>
              if (sg =? 45)%N then (true, r')
              else if (sg =? 43)%N then (false, r')
              else (false, r)
          | [] => (false, r)
          end in
        match digitpart r1 with
        | ((_ :: _) as eds, []) =>
            Some (if eneg then - Json.digits_value eds
                  else Json.digits_value eds)
        | _ => None
        end
      else None
  end.

(** [float(s)] for a string: surrounding whitespace is ignored; the text is
    a signed decimal literal, or inf, infinity or nan in any letter case. *)
Definition of_str (s : pystr) : option pyfloat :=
  let s := strip s in
  let (neg, body) :=
    match s with
    | c :: r =>
        if (c =? 45)%N then (true, r)
        else if (c =? 43)%N then (false, r)
        else (false, s)
    | [] => (false, s)
    end in
  let word := map lower body in
  if PyStr.eqb word "inf" || PyStr.eqb word "infinity"
  then Some (if neg then NegInf else PosInf)
  else if PyStr.eqb word "nan" then Some NaN
  else
    let (ids, s1) := digitpart body in
    let (fds, s2) :=
      match s1 with
      | c :: r => if (c =? 46)%N then digitpart r else ([], s1)
      | [] => ([], s1)
      end in
    match ids ++ fds with
    | [] => None
    | ds =>
        match exponent s2 with
        | None => None
        | Some e =>
            let m := Json.digits_value ds in
            Some (Json.decimal (if neg then - m else m)
                               (e - Z.of_nat (List.length fds)))
        end
    end.

(** An [int] at or beyond this bound rounds to 2^1024 and does not fit a
    double. *)
Definition int_overflow : Z := 2 ^ 1024 - 2 ^ 970.

(** [float(v)] *)
Definition float (v : pyval) : result pyfloat :=
  match v with
  | PFloat f => Ok f
  | PInt z =>
      if Z.abs z <? int_overflow then Ok (Fin (inject_Z z))
      else Raise OverflowError
  | PBool b => Ok (Fin (if b then 1 else 0))
  | PStr s =>
      match of_str s with
      | Some f => Ok f
      | None => Raise ValueError
      end
  | PNone | PList _ | PDict _ => Raise TypeError
  end.

End PyFloat.

(** ** Helpers: safe JSON parsing *)

Definition safe_json_loads (raw : pystr) : option pydict :=
  let raw := strip raw in
  match raw with
  | [] => None
  | _ =>
      match Json.loads raw with
      | Some (PDict obj) => Some obj
      | Some _ => None
      | None =>
          (* Try extract first JSON object block *)
          let start := find 123 raw in
          let end_ := rfind 125 raw in
          if negb (start =? -1) && negb (end_ =? -1) && (end_ >? start) then
            let snippet := slice raw start (end_ + 1) in
            match Json.loads snippet with
            | Some (PDict obj) => Some obj
            | _ => None
            end
          else None
      end
  end.

(** [safe_json_loads(raw) or {}] *)
Definition or_empty (o : option pydict) : pydict :=
  match o with
  | Some obj => obj
  | None => []
  end.

Definition clamp_limit (n : Z) (default max_n : Z) : Z :=
  if n <=? 0 then default else Z.min n max_n.

(** ** The data exchanged between the phases

    Each record is one of the dictionaries the phases return; a field is a
    [pyval] where the code stores whatever the model produced. *)

(** The result of [phase1_route]. *)
Record RouteDecision := {
  route : pyval;
  confidence : pyfloat;
  reason : pyval;
  route_raw : pystr
}.

(** The result of [phase2_db]; a row of [rows_preview] is [dict(r)]. *)
Record QueryResult := {
  db_ok : bool;
  db_sql : pyval;
  db_notes : pyval;
  db_rows_preview : option (list pydict);
  db_error : option pystr;
  db_raw : pystr
}.

(** The result of [phase3_rag]. *)
Record RetrievalResult := {
  rag_ok : bool;
  rag_context : pystr;
  rag_sources : list pystr;
  rag_answer : pyval;
  rag_notes : pyval;
  rag_raw : option pystr
}.

(** [evidence["db"]] and [evidence["rag"]] *)
Record EvidenceDb := {
  ev_db_ok : bool;
  ev_db_sql : pyval;
  ev_db_notes : pyval;
  ev_db_error : option pystr;
  ev_db_rows_preview : option (list pydict)
}.

Record EvidenceRag := {
  ev_rag_ok : bool;
  ev_rag_notes : pyval;
  ev_rag_sources : list pystr;
  ev_phase3_answer : pyval;
  ev_context : pystr
}.

(** The evidence blob of [phase4_final]; [None] is the [None] the code
    stores for a branch that did not run. *)
Record Evidence := {
  ev_question : pystr;
  ev_route : pyval;
  ev_route_confidence : pyfloat;
  ev_route_reason : pyval;
  ev_db : option EvidenceDb;
  ev_rag : option EvidenceRag
}.

(** The result of [phase4_final]. *)
Record FinalAnswer := {
  final_answer : pyval;
  final_citations : pyval;
  final_notes : pyval;
  final_quality_score : pyfloat;
  final_quality_reason : pyval;
  final_raw : pystr;
  final_evidence : Evidence
}.

Record Debug := {
  debug_route : RouteDecision;
  debug_db_out : option QueryResult;
  debug_rag_out : option RetrievalResult;
  debug_final_notes : pyval;
  debug_final_raw : pystr;
  debug_evidence : Evidence
}.

(** The result of [run_pipeline], without [elapsed_ms] (wall-clock time is
    not modelled). *)
Record Envelope := {
  answer : pyval;
  citations : pyval;
  mode : pyval;
  quality_score : pyfloat;
  quality_reason : pyval;
  debug : Debug
}.

(** ** The collaborators and the effects *)

(** The system prompts of [app/core/llm_rules.py]. *)
Inductive system_prompt :=
| PHASE1_ROUTER_SYSTEM
| PHASE2_DB_SQL_SYSTEM
| PHASE3_RAG_ANSWER_SYSTEM
| PHASE4_FINAL_SYSTEM.

(** The content of the user message: a text, or [json.dumps] of the
    evidence. *)
Inductive user_content :=
| Text (s : pystr)
| JsonDumps (e : Evidence).

(** What [generate_completion] reads of the backend's reply: the message of
    each choice, with the arguments of each tool call ([None] when they are
    not a string). *)
Record Message := {
  content : option pystr;
  reasoning_content : option pystr;
  tool_calls : list (option pystr)
}.

Record Completion := { choices : list Message }.

(** A retrieved chunk and the metadata [format_citations] reads. *)
Record Document := {
  page_content : pystr;
  source : option pystr;
  page : option Z
}.

(** The store's answer to one statement: the rows, the message of an
    [sqlite3.Error], or an exception of another class raised by the driver
    (a statement with a NUL character raises [ValueError]). *)
Inductive store_reply :=
| Rows (rows : list pydict)
| Error (msg : pystr)
| Refused (e : exn).

(** The calls a phase makes to a collaborator. *)
Inductive event :=
| Completed (system : system_prompt) (user : user_content)
| Executed (statement : pystr)
| Searched (query : pystr) (k : Z).

(** A computation: the calls made, in order, and a value or the exception
    that ended it. *)
Definition M (A : Type) : Type := list event * result A.

Definition ret {A} (a : A) : M A := ([], Ok a).

Definition raise {A} (e : exn) : M A := ([], Raise e).

Definition bind {A B} (m : M A) (f : A -> M B) : M B :=
  match m with
  | (log, Ok a) => let (log', r) := f a in (log ++ log', r)
  | (log, Raise e) => (log, Raise e)
  end.

Definition emit (e : event) : M unit := ([e], Ok tt).

(** [try: body except sqlite3.Error as e: handler(e)] *)
Definition except_sqlite {A} (body : M A) (handler : pystr -> M A) : M A :=
  match body with
  | (log, Raise (SqliteError msg)) =>
      let (log', r) := handler msg in (log ++ log', r)
  | other => other
  end.

Notation "x <- m ;; k" := (bind m (fun x => k))
  (at level 61, m at next level, right associativity).
Notation "m ;;; k" := (bind m (fun _ => k))
  (at level 61, right associativity).

Definition events {A} (m : M A) : list event := fst m.
Definition outcome {A} (m : M A) : result A := snd m.

Definition or_str (o : option pystr) : pystr :=
  match o with
  | Some s => s
  | None => []
  end.

(** ** [app/core/rag.py]: citations *)

Fixpoint dedup (seen : list pystr) (cites : list pystr) : list pystr :=
  match cites with
  | [] => []
  | c :: rest =>
      if PyStr.mem c seen then dedup seen rest
      else c :: dedup (c :: seen) rest
  end.

Definition format_citations (metas : list Document) : list pystr :=
  let cites :=
    map (fun m =>
           let src :=
             match source m with
             | Some ((_ :: _) as s) => s
             | _ => txt "document"
             end in
           match page m with
           | Some page0 => src ++ txt " p." ++ PyStr.of_Z (page0 + 1)
           | None => src
           end) metas in
  (* de-duplicate preserving order *)
  dedup [] cites.

(** ** Observing a run *)

Definition is_completion_of (system : system_prompt) (e : event) : bool :=
  match e, system with
  | Completed PHASE1_ROUTER_SYSTEM _, PHASE1_ROUTER_SYSTEM
  | Completed PHASE2_DB_SQL_SYSTEM _, PHASE2_DB_SQL_SYSTEM
  | Completed PHASE3_RAG_ANSWER_SYSTEM _, PHASE3_RAG_ANSWER_SYSTEM
  | Completed PHASE4_FINAL_SYSTEM _, PHASE4_FINAL_SYSTEM => true
  | _, _ => false
  end.

(** The query phase ran: the SQL generator was asked for a statement. *)
Definition query_phase_ran (log : list event) : bool :=
  existsb (is_completion_of PHASE2_DB_SQL_SYSTEM) log.

(** The retrieval phase ran: the index was searched. *)
Definition retrieval_phase_ran (log : list event) : bool :=
  existsb (fun e => match e with Searched _ _ => true | _ => false end) log.

(** The composer ran: the final prompt was sent. *)
Definition composer_ran (log : list event) : bool :=
  existsb (is_completion_of PHASE4_FINAL_SYSTEM) log.

(** The statements passed to the store, in order. *)
Fixpoint statements (log : list event) : list pystr :=
  match log with
  | [] => []
  | Executed s :: rest => s :: statements rest
  | _ :: rest => statements rest
  end.

(** The allow-list of the specification, in its words: only read-only
    statement forms are permitted.  A statement is read-only when its first
    keyword, in any letter case, is SELECT or WITH. *)
Definition is_letter (c : N) : bool :=
  ((65 <=? c) && (c <=? 90) || (97 <=? c) && (c <=? 122))%N.

Fixpoint take_letters (s : pystr) : pystr :=
  match s with
  | c :: r => if is_letter c then PyFloat.lower c :: take_letters r else []
  | [] => []
  end.

Definition read_only_statement (statement : pystr) : bool :=
  let keyword := take_letters (lstrip statement) in
  PyStr.eqb keyword "select" || PyStr.eqb keyword "with".

(** The statements [get_connection] runs on every connection. *)
Definition PRAGMAS : list pystr :=
  [txt "PRAGMA journal_mode=WAL;"; txt "PRAGMA synchronous=NORMAL;";
   txt "PRAGMA temp_store=MEMORY;"].

(** The citation [format_citations] builds for one chunk, before it
    removes the duplicates. *)
Definition citation_of (m : Document) : pystr :=
  let src :=
    match source m with
    | Some ((_ :: _) as s) => s
    | _ => txt "document"
    end in
  match page m with
  | Some page0 => src ++ txt " p." ++ PyStr.of_Z (page0 + 1)
  | None => src
  end.

(** The number of generation calls and of index searches in a log. *)
Definition generation_calls (log : list event) : nat :=
  List.length
    (filter (fun e => match e with Completed _ _ => true | _ => false end)
            log).

Definition searches (log : list event) : nat :=
  List.length
    (filter (fun e => match e with Searched _ _ => true | _ => false end)
            log).

(** [text] has nothing but whitespace. *)
Definition blank (text : pystr) : bool := forallb isspace text.

(** ** [app/core/db.py] and [app/core/rag.py]: the bootstrap

    The two bootstrap functions work on state outside the process: the
    SQLite file and the directory of the saved index.  That state is passed
    explicitly, and a bootstrap returns the new state with its outcome. *)

Module Bootstrap.

Inductive outcome (A : Type) :=
| Done (a : A)
| FileNotFoundError (path : pystr).

Arguments Done {A} a.
Arguments FileNotFoundError {A} path.

Definition DEFAULT_DB_PATH : pystr := "data/processed/fraud.db".
Definition DEFAULT_CSV_PATH : pystr := "data/raw/fraudTrain.csv".

(** The names of the four indexes of [create_indexes], with [TABLE_NAME]
    filled in. *)
Definition INDEX_NAMES : list pystr :=
  [txt "idx_transactions_time"; txt "idx_transactions_merchant";
   txt "idx_transactions_category"; txt "idx_transactions_is_fraud"].

Section Db.

(** A row of the table and a chunk of the CSV reader; [to_sql] gives the
    rows [chunk.to_sql(..., if_exists="append")] inserts for a chunk after
    the normalisation of its columns. *)
Variable row : Type.
Variable chunk : Type.
Variable to_sql : chunk -> list row.

(** The database file: the rows of the transactions table ([None] while the
    table does not exist) and the names of its indexes. *)
Record Database := {
  table : option (list row);
  indexes : list pystr
}.

Definition rows (db : Database) : list row :=
  match table db with
  | Some r => r
  | None => []
  end.

(** CREATE TABLE IF NOT EXISTS *)
Definition init_schema (db : Database) : Database :=
  match table db with
  | Some _ => db
  | None => {| table := Some []; indexes := indexes db |}
  end.

(** CREATE INDEX IF NOT EXISTS *)
Definition create_index (name : pystr) (db : Database) : Database :=
  if PyStr.mem name (indexes db) then db
  else {| table := table db; indexes := indexes db ++ [name] |}.

Definition create_indexes (db : Database) : Database :=
  fold_left (fun db name => create_index name db) INDEX_NAMES db.

(** The CSV file is [None] when it does not exist, and otherwise the chunks
    its reader yields. *)
Definition load_csv_to_sqlite (csv : option (list chunk)) (db : Database)
  : Database * outcome unit :=
  match csv with
  | None => (db, FileNotFoundError DEFAULT_CSV_PATH)
  | Some reader =>
      (fold_left
         (fun db c => {| table := Some (rows db ++ to_sql c);
                         indexes := indexes db |})
         reader db,
       Done tt)
  end.

Definition bootstrap_db (csv : option (list chunk)) (force_reload : bool)
  (db : Database) : Database * outcome pystr :=
  let db := init_schema db in
  let db :=
    if force_reload
    then {| table := Some []; indexes := indexes db |}   (* DELETE FROM *)
    else db in
  let n := List.length (rows db) in
  if Nat.eqb n 0 then
    match load_csv_to_sqlite csv db with
    | (db, Done _) => (create_indexes db, Done DEFAULT_DB_PATH)
    | (db, FileNotFoundError path) => (db, FileNotFoundError path)
    end
  else (create_indexes db, Done DEFAULT_DB_PATH).

End Db.

Arguments table {row} _.
Arguments indexes {row} _.
Arguments rows {row} db.
Arguments init_schema {row} db.
Arguments create_index {row} name db.
Arguments create_indexes {row} db.
Arguments load_csv_to_sqlite {row chunk} to_sql csv db.
Arguments bootstrap_db {row chunk} to_sql csv force_reload db.

(** [Path(p).name]: the part after the last slash. *)
Fixpoint until_slash (s : pystr) : pystr :=
  match s with
  | [] => []
  | c :: r => if (c =? 47)%N then [] else c :: until_slash r
  end.

Definition path_name (p : pystr) : pystr := rev (until_slash (rev p)).

Section Rag.

(** The index type, the text splitter and [FAISS.from_documents] with the
    embeddings. *)
Variable Index : Type.
Variable split_documents : list Document -> list Document.
Variable from_documents : list Document -> Index.

(** The files: which paths exist, the pages the PDF loader reads from a
    path, the text of a path, and the index saved in the index directory
    ([None] unless both index files are there). *)
Record Files := {
  file_exists : pystr -> bool;
  pdf_pages : pystr -> list Document;
  read_text : pystr -> pystr;
  saved_index : option Index
}.

Definition _load_pdfs_as_documents (files : Files) (pdf_paths : list pystr)
  : list Document :=
  flat_map
    (fun pdf_path =>
       map (fun d => {| page_content := page_content d;
                        source := Some (path_name pdf_path);
                        page := page d |})
           (pdf_pages files pdf_path))
    pdf_paths.

Definition _load_texts_as_documents (files : Files) (text_paths : list pystr)
  : list Document :=
  flat_map
    (fun p =>
       if negb (file_exists files p) then []
       else [ {| page_content := read_text files p;
                 source := Some (path_name p);
                 page := Some 0 |} ])
    text_paths.

Definition bootstrap_rag (pdf_paths text_paths : list pystr)
  (force_rebuild : bool) (files : Files) : Files * outcome Index :=
  match List.find (fun p => negb (file_exists files p)) pdf_paths with
  | Some p => (files, FileNotFoundError p)
  | None =>
      match saved_index files, force_rebuild with
      | Some db, false => (files, Done db)
      | _, _ =>
          (* -------- Build -------- *)
          let docs_pdf := _load_pdfs_as_documents files pdf_paths in
          let docs_txt := _load_texts_as_documents files text_paths in
          let docs := docs_pdf ++ docs_txt in
          let chunks := split_documents docs in
          let db := from_documents chunks in
          ({| file_exists := file_exists files;
              pdf_pages := pdf_pages files;
              read_text := read_text files;
              saved_index := Some db |},
           Done db)
      end
  end.

End Rag.

Arguments file_exists {Index} _ _.
Arguments pdf_pages {Index} _ _.
Arguments read_text {Index} _ _.
Arguments saved_index {Index} _.
Arguments _load_pdfs_as_documents {Index} files pdf_paths.
Arguments _load_texts_as_documents {Index} files text_paths.
Arguments bootstrap_rag {Index} split_documents from_documents
  pdf_paths text_paths force_rebuild files.

End Bootstrap.

(** ** Concrete collaborators, for the examples *)

Module Examples.

(** A backend that answers each phase with a fixed text in the primary
    content field. *)
Definition say (s : pystr) : Completion :=
  {| choices := [ {| content := Some s;
                     reasoning_content := None;
                     tool_calls := [] |} ] |}.

Definition backend (router sql rag final : pystr)
  (system : system_prompt) (_ : user_content) : Completion :=
  match system with
  | PHASE1_ROUTER_SYSTEM => say router
  | PHASE2_DB_SQL_SYSTEM => say sql
  | PHASE3_RAG_ANSWER_SYSTEM => say rag
  | PHASE4_FINAL_SYSTEM => say final
  end.

(** A store that accepts the pragmas, answers one query with [n] rows and
    an UPDATE or DELETE with none, and rejects everything else. *)
Definition row (i : nat) : pydict := [(txt "n", PInt (Z.of_nat i))].

Definition store_with (n : nat) (statement : pystr) : store_reply :=
  if PyStr.mem statement PRAGMAS then Rows []
  else if PyStr.eqb statement "SELECT n FROM transactions LIMIT 200"
  then Rows (map row (seq 0 n))
  else if PyStr.eqb statement "DELETE FROM transactions" then Rows []
  else Error "near syntax error".

(** An index with two chunks of the same page, and an empty one. *)
Definition index (_ : pystr) (_ : Z) : list Document :=
  [ {| page_content := "Card skimming copies the magnetic stripe.";
       source := Some (txt "Bhatla.pdf"); page := Some 2 |};
    {| page_content := "Skimmers are fitted to terminals.";
       source := Some (txt "Bhatla.pdf"); page := Some 2 |} ].

Definition empty_index (_ : pystr) (_ : Z) : list Document := [].

(** Scenario D: the router says db, the generator declines, retrieval
    backs the query up, the composer cites nothing. *)
Definition declining : system_prompt -> user_content -> Completion :=
  backend
    (dq "{'route': 'db', 'confidence': 0.9, 'reason': 'needs external data'}")
    (dq "{'sql': null, 'notes': 'UNSUPPORTED: requires external data'}")
    (dq "{'answer': 'Skimming copies the card stripe.', 'notes': ''}")
    (dq "{'answer': 'Skimming copies the card stripe.', 'citations': [], 'quality_score': 0.7}").

(** The router says general; the composer nevertheless cites a document and
    scores itself 5. *)
Definition chatty : system_prompt -> user_content -> Completion :=
  backend
    (dq "{'route': 'general', 'confidence': 1.0, 'reason': 'smalltalk'}")
    ""
    ""
    (dq "Sure! {'answer': 'Hello!', 'citations': ['Bhatla.pdf p.3'], 'quality_score': 5}").

(** The generator emits a statement that is not a query. *)
Definition deleting : system_prompt -> user_content -> Completion :=
  backend
    (dq "{'route': 'db', 'confidence': 1, 'reason': 'analytics'}")
    (dq "{'sql': 'DELETE FROM transactions', 'notes': 'as asked'}")
    ""
    (dq "{'answer': 'Done.', 'quality_score': 1}").

(** The generator emits a query that matches 120 rows, and one that the
    store rejects. *)
Definition querying : system_prompt -> user_content -> Completion :=
  backend
    (dq "{'route': 'db', 'confidence': 1, 'reason': 'analytics'}")
    (dq "{'sql': 'SELECT n FROM transactions LIMIT 200', 'notes': 'top rows'}")
    ""
    (dq "{'answer': 'See the rows.', 'citations': ['own note'], 'quality_score': 0.9}").

Definition misspelling : system_prompt -> user_content -> Completion :=
  backend
    (dq "{'route': 'db', 'confidence': 1, 'reason': 'analytics'}")
    (dq "{'sql': 'SELEC n FROM transactions', 'notes': 'typo'}")
    ""
    (dq "{'answer': 'No data.', 'quality_score': 0.1}").

(** The generator answers with a statement that is not a string. *)
Definition numbering : system_prompt -> user_content -> Completion :=
  backend
    (dq "{'route': 'both', 'confidence': 1, 'reason': 'analytics'}")
    (dq "{'sql': 5, 'notes': 'five'}")
    ""
    (dq "{'answer': 'Five.', 'quality_score': 1}").

(** The router, then the composer, answers with a field that is not a
    number. *)
Definition wordy_router : system_prompt -> user_content -> Completion :=
  backend (dq "{'route': 'db', 'confidence': 'high', 'reason': 'analytics'}")
          "" "" "".

Definition wordy_composer : system_prompt -> user_content -> Completion :=
  backend (dq "{'route': 'general', 'confidence': 1, 'reason': 'smalltalk'}")
          "" ""
          (dq "{'answer': 'Hello!', 'citations': [], 'quality_score': 'high'}").

Definition question : pystr := "What is card skimming?".

(** Files in which every path exists but one PDF, each PDF has one page,
    and the saved index is a number. *)
Definition files (saved : option nat) : Bootstrap.Files nat :=
  {| Bootstrap.file_exists :=
       fun p => negb (PyStr.eqb p "data/raw/missing.pdf");
     Bootstrap.pdf_pages := fun _ =>
       [ {| page_content := "page one"; source := None; page := Some 0 |} ];
     Bootstrap.read_text := fun _ => txt "summary";
     Bootstrap.saved_index := saved |}.

(** A retrieval result with one source, and a decision for route rag. *)
Definition retrieved : RetrievalResult :=
  {| rag_ok := true;
     rag_context := "Card skimming copies the magnetic stripe.";
     rag_sources := [txt "Bhatla.pdf p.3"];
     rag_answer := PStr "Skimming copies the card stripe.";
     rag_notes := PStr "";
     rag_raw := Some (dq "{'answer': 'Skimming copies the card stripe.'}") |}.

Definition decided_rag : RouteDecision :=
  {| route := PStr "rag"; confidence := Fin 1;
     reason := PStr "conceptual"; route_raw := "" |}.

End Examples.

Section Pipeline.

(** The text-generation backend ([_client.chat.completions.create]), the
    store behind [conn.execute] and the index behind
    [rag.db.similarity_search]. *)
Variable chat_completions_create : system_prompt -> user_content -> Completion.
Variable store : pystr -> store_reply.
Variable similarity_search : pystr -> Z -> list Document.

(** ** [app/core/llm_inference.py] *)

Definition generate_completion (system : system_prompt) (user : user_content)
  : M pystr :=
  emit (Completed system user) ;;;
  let completion := chat_completions_create system user in
  match choices completion with
  | [] => ret []
  | msg :: _ =>
      (* Normal output *)
      match strip (or_str (content msg)) with
      | (_ :: _) as content => ret content
      | [] =>
          match strip (or_str (reasoning_content msg)) with
          | (_ :: _) as reasoning => ret reasoning
          | [] =>
              (* Tool call args fallback *)
              match tool_calls msg with
              | Some args :: _ =>
                  match strip args with
                  | (_ :: _) as a => ret a
                  | [] => ret []
                  end
              | _ => ret []
              end
          end
      end
  end.

(** ** [app/core/db.py] and [app/core/rag.py]: the handles *)

(** [conn.execute(sql).fetchall()] *)
Definition execute (sql : pyval) : M (list pydict) :=
  match sql with
  | PStr statement =>
      emit (Executed statement) ;;;
      match store statement with
      | Rows rows => ret rows
      | Error msg => raise (SqliteError msg)
      | Refused e => raise e
      end
  | _ => raise TypeError
  end.

Definition get_connection : M unit :=
  (* Pragmas for decent performance on local file DB *)
  execute (PStr "PRAGMA journal_mode=WAL;") ;;;
  execute (PStr "PRAGMA synchronous=NORMAL;") ;;;
  execute (PStr "PRAGMA temp_store=MEMORY;") ;;;
  ret tt.

(** [with get_connection(db_path) as conn: conn.execute(sql).fetchall()] *)
Definition run_statement (sql : pyval) : M (list pydict) :=
  get_connection ;;; execute sql.

Definition retrieve_context (query : pystr) (k : Z) : M (list Document) :=
  emit (Searched query k) ;;;
  ret (similarity_search query k).

(** ** Phase 1: Intent router *)

Definition ROUTES : list pystr := [txt "db"; txt "rag"; txt "both"; txt "general"].

Definition phase1_route (question : pystr) : M RouteDecision :=
  raw <- generate_completion PHASE1_ROUTER_SYSTEM (Text question) ;;
  let obj := or_empty (safe_json_loads raw) in
  let route := dict_get obj "route" (PStr "both") in
  let route := if negb (in_strs route ROUTES) then PStr "both" else route in
  match PyFloat.float (py_or (dict_get obj "confidence" (PFloat (Fin 0)))
                            (PFloat (Fin 0))) with
  | Raise e => raise e
  | Ok confidence =>
      ret {| route := route;
             confidence := confidence;
             reason := dict_get obj "reason" (PStr "fallback");
             route_raw := raw |}
  end.

(** ** Phase 2: NL to SQL + execute *)

Definition phase2_db (question : pystr) : M QueryResult :=
  raw <- generate_completion PHASE2_DB_SQL_SYSTEM (Text question) ;;
  let obj := or_empty (safe_json_loads raw) in
  let sql := dict_get obj "sql" PNone in
  let notes := dict_get obj "notes" (PStr "") in
  if negb (truthy sql) then
    ret {| db_ok := false;
           db_sql := PNone;
           db_notes := py_or notes (PStr "No SQL returned");
           db_rows_preview := None;
           db_error := None;
           db_raw := raw |}
  else
    (* Execute SQL safely (read-only expectation) *)
    except_sqlite
      (rows <- run_statement sql ;;
       (* preview: list[dict] *)
       let preview := firstn 50 rows in
       ret {| db_ok := true;
              db_sql := sql;
              db_notes := notes;
              db_rows_preview := Some preview;
              db_error := None;
              db_raw := raw |})
      (fun e =>
         ret {| db_ok := false;
                db_sql := sql;
                db_notes := notes;
                db_rows_preview := None;
                db_error := Some (txt "SQL error: " ++ e);
                db_raw := raw |}).

(** ** Phase 3: RAG retrieve + LLM answer based on context *)

Definition phase3_rag (question : pystr) (k : Z) : M RetrievalResult :=
  hits <- retrieve_context question k ;;
  match hits with
  | [] =>
      ret {| rag_ok := false;
             rag_context := [];
             rag_sources := [];
             rag_answer := PNone;
             rag_notes := PStr "No relevant context retrieved";
             rag_raw := None |}
  | _ =>
      let context :=
        PyStr.join (nl ++ nl ++ txt "---" ++ nl ++ nl)
                   (map (fun d => firstn 1200 (page_content d)) hits) in
      let sources := format_citations hits in
      raw <- generate_completion PHASE3_RAG_ANSWER_SYSTEM
               (Text (txt "Question:" ++ nl ++ question ++ nl ++ nl
                      ++ txt "Context:" ++ nl ++ context)) ;;
      let obj := or_empty (safe_json_loads raw) in
      let ans := dict_get1 obj "answer" in
      let notes := dict_get obj "notes" (PStr "") in
      ret {| rag_ok := true;
             rag_context := context;
             rag_sources := sources;
             rag_answer := ans;
             rag_notes := notes;
             rag_raw := Some raw |}
  end.

(** ** Phase 4: Final composer *)

Definition APOLOGY : pystr :=
  "Maaf, aku belum bisa menyusun jawaban dari evidence yang tersedia.".

(** Build a compact evidence blob *)
Definition build_evidence (question : pystr) (route_decision : RouteDecision)
  (db_out : option QueryResult) (rag_out : option RetrievalResult)
  : Evidence :=
  {| ev_question := question;
     ev_route := route route_decision;
     ev_route_confidence := confidence route_decision;
     ev_route_reason := reason route_decision;
     ev_db :=
       match db_out with
       | Some d =>
           Some {| ev_db_ok := db_ok d;
                   ev_db_sql := db_sql d;
                   ev_db_notes := db_notes d;
                   ev_db_error := db_error d;
                   ev_db_rows_preview := db_rows_preview d |}
       | None => None
       end;
     ev_rag :=
       match rag_out with
       | Some r =>
           Some {| ev_rag_ok := rag_ok r;
                   ev_rag_notes := rag_notes r;
                   ev_rag_sources := rag_sources r;
                   ev_phase3_answer := rag_answer r;
                   ev_context := rag_context r |}
       | None => None
       end |}.

Definition phase4_final (question : pystr) (route_decision : RouteDecision)
  (db_out : option QueryResult) (rag_out : option RetrievalResult)
  : M FinalAnswer :=
  let evidence := build_evidence question route_decision db_out rag_out in
  raw <- generate_completion PHASE4_FINAL_SYSTEM (JsonDumps evidence) ;;
  let obj := or_empty (safe_json_loads raw) in
  let answer := py_or (dict_get1 obj "answer") (PStr APOLOGY) in
  let citations := py_or (dict_get1 obj "citations") (PList []) in
  let notes := py_or (dict_get1 obj "notes") (PStr "") in
  match PyFloat.float (py_or (dict_get obj "quality_score" (PFloat (Fin 0)))
                            (PFloat (Fin 0))) with
  | Raise e => raise e
  | Ok quality_score =>
      let quality_reason := py_or (dict_get1 obj "quality_reason") (PStr "") in
      (* If model forgot citations but we have RAG sources, attach them *)
      let citations :=
        match rag_out with
        | Some r =>
            if negb (truthy citations)
               && match rag_sources r with [] => false | _ => true end
            then PList (map PStr (rag_sources r))
            else citations
        | None => citations
        end in
      ret {| final_answer := answer;
             final_citations := citations;
             final_notes := notes;
             final_quality_score := quality_score;
             final_quality_reason := quality_reason;
             final_raw := raw;
             final_evidence := evidence |}
  end.

(** ** Orchestrator: Phase 1 to 4 *)

(** The dictionary [run_pipeline] returns. *)
Definition envelope (route_d : RouteDecision) (db_out : option QueryResult)
  (rag_out : option RetrievalResult) (final : FinalAnswer) : Envelope :=
  {| answer := final_answer final;
     citations := final_citations final;
     mode := route route_d;
     quality_score := final_quality_score final;
     quality_reason := final_quality_reason final;
     debug :=
       {| debug_route := route_d;
          debug_db_out := db_out;
          debug_rag_out := rag_out;
          debug_final_notes := final_notes final;
          debug_final_raw := final_raw final;
          debug_evidence := final_evidence final |} |}.

Definition run_pipeline (question : pystr) (k : Z) : M Envelope :=
  (* Phase 1 *)
  route_d <- phase1_route question ;;
  (* Phase 2 / 3 according to route *)
  branch <-
    (if in_strs (route route_d) [txt "db"; txt "both"] then
       db_out <- phase2_db question ;;
       (* If Phase2 fails and route was db, fallback to RAG *)
       if eq_str (route route_d) "db" && negb (db_ok db_out) then
         rag_out <- phase3_rag question k ;;
         ret (Some db_out, Some rag_out)
       else ret (Some db_out, None)
     else ret (None, None)) ;;
  let db_out : option QueryResult := fst branch in
  rag_out <-
    (if in_strs (route route_d) [txt "rag"; txt "both"] then
       rag_out <- phase3_rag question k ;;
       ret (Some rag_out)
     else ret (snd branch)) ;;
  (* Phase 4 always *)
  final <- phase4_final question route_d db_out rag_out ;;
  ret (envelope route_d db_out rag_out final).

(** [generate_completion], as the phases see it: the text it returns. *)
Definition completion_text (system : system_prompt) (user : user_content)
  : pystr :=
  match outcome (generate_completion system user) with
  | Ok s => s
  | Raise _ => []
  end.

(** The object each phase works on: [safe_json_loads(raw) or {}]. *)
Definition parsed (raw : pystr) : pydict := or_empty (safe_json_loads raw).

(** * Properties *)

Lemma bind_ok {A B} (log : list event) (a : A) (f : A -> M B) :
  bind (log, Ok a) f = (log ++ events (f a), outcome (f a)).
Proof. unfold bind, events, outcome. now destruct (f a). Qed.

Lemma bind_raise {A B} (log : list event) (e : exn) (f : A -> M B) :
  bind (log, Raise e) f = (log, Raise e).
Proof. reflexivity. Qed.

Lemma M_eta {A} (m : M A) : m = (events m, outcome m).
Proof. now destruct m. Qed.

Lemma generate_completion_spec system user :
  generate_completion system user
  = ([Completed system user], Ok (completion_text system user)).
Proof.
  unfold completion_text, generate_completion, emit.
  rewrite bind_ok. cbn [app].
  destruct (choices (chat_completions_create system user)) as [|msg ?];
    [reflexivity|].
  destruct (strip (or_str (content msg))); [|reflexivity].
  destruct (strip (or_str (reasoning_content msg))); [|reflexivity].
  destruct (tool_calls msg) as [|[args|] ?]; try reflexivity.
  destruct (strip args); reflexivity.
Qed.

(** What [phase1_route] computes from the router's text. *)
Lemma phase1_route_eq question :
  phase1_route question
  = let raw := completion_text PHASE1_ROUTER_SYSTEM (Text question) in
    let obj := parsed raw in
    ([Completed PHASE1_ROUTER_SYSTEM (Text question)],
     match PyFloat.float (py_or (dict_get obj "confidence" (PFloat (Fin 0)))
                               (PFloat (Fin 0))) with
     | Raise e => Raise e
     | Ok c =>
         Ok {| route :=
                 if negb (in_strs (dict_get obj "route" (PStr "both")) ROUTES)
                 then PStr "both"
                 else dict_get obj "route" (PStr "both");
               confidence := c;
               reason := dict_get obj "reason" (PStr "fallback");
               route_raw := raw |}
     end).
Proof.
  unfold phase1_route, parsed. rewrite generate_completion_spec, bind_ok.
  cbv zeta.
  destruct (PyFloat.float _); reflexivity.
Qed.


(** *** The monad *)

Lemma bind_assoc {A B C} (m : M A) (f : A -> M B) (g : B -> M C) :
  bind (bind m f) g = bind m (fun x => bind (f x) g).
Proof.
  destruct m as [log [a|e]]; [|reflexivity].
  unfold bind at 2 3. destruct (f a) as [log' [b|e']]; cbn.
  - destruct (g b). now rewrite app_assoc.
  - reflexivity.
Qed.

Lemma events_bind {A B} (m : M A) (f : A -> M B) :
  events (bind m f)
  = match outcome m with
    | Ok a => events m ++ events (f a)
    | Raise _ => events m
    end.
Proof.
  destruct m as [log [a|e]]; [|reflexivity].
  rewrite bind_ok. reflexivity.
Qed.

Lemma outcome_bind {A B} (m : M A) (f : A -> M B) :
  outcome (bind m f)
  = match outcome m with
    | Ok a => outcome (f a)
    | Raise e => Raise e
    end.
Proof.
  destruct m as [log [a|e]]; [|reflexivity].
  rewrite bind_ok. reflexivity.
Qed.

(** *** Phase 2 *)

Lemma phase2_db_eq question :
  phase2_db question
  = let raw := completion_text PHASE2_DB_SQL_SYSTEM (Text question) in
    let sql := dict_get (parsed raw) "sql" PNone in
    let notes := dict_get (parsed raw) "notes" (PStr "") in
    let asked := Completed PHASE2_DB_SQL_SYSTEM (Text question) in
    if negb (truthy sql) then
      ([asked],
       Ok {| db_ok := false; db_sql := PNone;
             db_notes := py_or notes (PStr "No SQL returned");
             db_rows_preview := None; db_error := None; db_raw := raw |})
    else
      (asked :: events (run_statement sql),
       match outcome (run_statement sql) with
       | Ok rows =>
           Ok {| db_ok := true; db_sql := sql; db_notes := notes;
                 db_rows_preview := Some (firstn 50 rows);
                 db_error := None; db_raw := raw |}
       | Raise (SqliteError msg) =>
           Ok {| db_ok := false; db_sql := sql; db_notes := notes;
                 db_rows_preview := None;
                 db_error := Some (txt "SQL error: " ++ msg);
                 db_raw := raw |}
       | Raise e => Raise e
       end).
Proof.
  unfold phase2_db, parsed. rewrite generate_completion_spec, bind_ok.
  cbv zeta.
  destruct (negb (truthy _)); [reflexivity|].
  set (sql := dict_get _ "sql" PNone).
  destruct (run_statement sql) as [log [rows|[| | |msg]]];
    unfold except_sqlite, bind, ret, events, outcome; cbn;
    now rewrite ?app_nil_r.
Qed.

(** The three results [phase2_db] returns.  When synthesis yields no query
    text it returns ok=false with sql, rows_preview and error all null.
    When running the statement raises [sqlite3.Error] it returns ok=false
    with the attempted sql preserved and the error message.  When the
    statement runs it returns ok=true, error null and as rows_preview the
    first 50 rows, so never more than 50. *)
Lemma phase2_db_postcondition question :
  let raw := completion_text PHASE2_DB_SQL_SYSTEM (Text question) in
  let sql := dict_get (parsed raw) "sql" PNone in
  let notes := dict_get (parsed raw) "notes" (PStr "") in
  (truthy sql = false ->
   outcome (phase2_db question)
   = Ok {| db_ok := false; db_sql := PNone;
           db_notes := py_or notes (PStr "No SQL returned");
           db_rows_preview := None; db_error := None; db_raw := raw |})
  /\
  (forall msg,
     truthy sql = true ->
     outcome (run_statement sql) = Raise (SqliteError msg) ->
     outcome (phase2_db question)
     = Ok {| db_ok := false; db_sql := sql; db_notes := notes;
             db_rows_preview := None;
             db_error := Some (txt "SQL error: " ++ msg); db_raw := raw |})
  /\
  (forall rows,
     truthy sql = true ->
     outcome (run_statement sql) = Ok rows ->
     outcome (phase2_db question)
     = Ok {| db_ok := true; db_sql := sql; db_notes := notes;
             db_rows_preview := Some (firstn 50 rows);
             db_error := None; db_raw := raw |}
     /\ (List.length (firstn 50 rows) <= 50)%nat).
Proof.
  cbv zeta. rewrite phase2_db_eq. cbv zeta. split; [|split].
  - intros ->. reflexivity.
  - intros msg -> Hrun. cbn [negb outcome snd].
    now rewrite Hrun.
  - intros rows -> Hrun. cbn [negb outcome snd].
    rewrite Hrun. split; [reflexivity|apply firstn_le_length].
Qed.

Lemma execute_str (statement : pystr) rows :
  store statement = Rows rows ->
  execute (PStr statement) = ([Executed statement], Ok rows).
Proof. unfold execute, emit. rewrite bind_ok. intros ->. reflexivity. Qed.

(** C7.  The three cases leave one out: a [sql] field that is truthy but
    not a string (a number, true, a non-empty list or object).  The
    connection is opened, [conn.execute] raises [TypeError], which the
    handler for [sqlite3.Error] does not catch, and [phase2_db] raises
    instead of returning a result with ok=false and the error. *)
Theorem phase2_db_non_string_sql question :
  let raw := completion_text PHASE2_DB_SQL_SYSTEM (Text question) in
  let sql := dict_get (parsed raw) "sql" PNone in
  truthy sql = true ->
  (forall s, sql <> PStr s) ->
  (forall p, In p PRAGMAS -> exists rows, store p = Rows rows) ->
  phase2_db question
  = (Completed PHASE2_DB_SQL_SYSTEM (Text question) :: map Executed PRAGMAS,
     Raise TypeError).
Proof.
  cbv zeta. intros Ht Hs Hp. rewrite phase2_db_eq. cbv zeta.
  rewrite Ht. cbn [negb].
  destruct (Hp "PRAGMA journal_mode=WAL;") as [r1 E1]; [cbn; auto|].
  destruct (Hp "PRAGMA synchronous=NORMAL;") as [r2 E2]; [cbn; auto|].
  destruct (Hp "PRAGMA temp_store=MEMORY;") as [r3 E3]; [cbn; auto|].
  unfold run_statement, get_connection.
  rewrite (execute_str _ _ E1), bind_ok.
  rewrite (execute_str _ _ E2), bind_ok.
  rewrite (execute_str _ _ E3), bind_ok.
  unfold ret. cbn [events outcome fst snd app]. rewrite bind_ok.
  destruct (dict_get _ "sql" PNone) as [| | | |s| |];
    try reflexivity.
  now destruct (Hs s).
Qed.

Lemma events_execute sql :
  Forall (fun e => exists s, e = Executed s) (events (execute sql)).
Proof.
  destruct sql; try (cbn; constructor).
  unfold execute, emit. rewrite bind_ok. cbn [app events fst].
  constructor; [eauto|].
  destruct (store s); cbn; constructor.
Qed.

Lemma Forall_events_bind {A B} (P : event -> Prop) (m : M A) (f : A -> M B) :
  Forall P (events m) -> (forall a, Forall P (events (f a))) ->
  Forall P (events (bind m f)).
Proof.
  intros Hm Hf. rewrite events_bind.
  destruct (outcome m); [apply Forall_app; auto | assumption].
Qed.

Lemma events_run_statement sql :
  Forall (fun e => exists s, e = Executed s) (events (run_statement sql)).
Proof.
  unfold run_statement, get_connection.
  apply Forall_events_bind; [|intros ?; apply events_execute].
  repeat (apply Forall_events_bind; [apply events_execute|intros ?]).
  constructor.
Qed.

Lemma statements_app (l1 l2 : list event) :
  statements (l1 ++ l2) = statements l1 ++ statements l2.
Proof.
  induction l1 as [|[| |] l1 IH]; cbn; rewrite ?IH; reflexivity.
Qed.

(** C1 (as amended).  [phase2_db] has no allow-list of its own.  When the
    model's sql field is empty or missing, nothing is passed to the store.
    When it is a non-empty string and the store accepts the connection
    pragmas, the statements passed to the store are the three pragmas of
    [get_connection] followed by the model's text, verbatim, whatever
    statement it is. *)
Theorem phase2_db_executes_model_sql question :
  let raw := completion_text PHASE2_DB_SQL_SYSTEM (Text question) in
  let sql := dict_get (parsed raw) "sql" PNone in
  (truthy sql = false -> statements (events (phase2_db question)) = [])
  /\
  (forall s,
     sql = PStr s -> s <> [] ->
     (forall p, In p PRAGMAS -> exists rows, store p = Rows rows) ->
     statements (events (phase2_db question)) = PRAGMAS ++ [s]).
Proof.
  cbv zeta. rewrite phase2_db_eq. cbv zeta. split.
  - intros ->. reflexivity.
  - intros s -> Hs Hpragmas.
    destruct s as [|c s]; [congruence|]. cbn [truthy negb events fst].
    unfold run_statement, get_connection.
    destruct (Hpragmas "PRAGMA journal_mode=WAL;") as [r1 H1];
      [cbn; auto|].
    destruct (Hpragmas "PRAGMA synchronous=NORMAL;") as [r2 H2];
      [cbn; auto|].
    destruct (Hpragmas "PRAGMA temp_store=MEMORY;") as [r3 H3];
      [cbn; auto 6|].
    rewrite (execute_str _ _ H1), (execute_str _ _ H2), (execute_str _ _ H3).
    rewrite !bind_ok. cbn [events fst outcome snd ret app].
    set (stmt := c :: s).
    unfold execute, emit. rewrite bind_ok. cbn [events fst outcome snd app].
    destruct (store stmt); reflexivity.
Qed.

(** *** Phase 3 *)

Lemma retrieve_context_spec query k :
  retrieve_context query k
  = ([Searched query k], Ok (similarity_search query k)).
Proof. reflexivity. Qed.


Lemma events_phase3_rag question k :
  exists rest,
    events (phase3_rag question k) = Searched question k :: rest
    /\ Forall (fun e => exists u, e = Completed PHASE3_RAG_ANSWER_SYSTEM u)
              rest.
Proof.
  unfold phase3_rag. rewrite retrieve_context_spec, bind_ok.
  destruct (similarity_search question k).
  - exists []. split; [reflexivity|constructor].
  - rewrite generate_completion_spec, bind_ok. cbn [fst app ret events].
    eexists. split; [reflexivity|]. constructor; [eauto|constructor].
Qed.

(** *** Phase 4 *)

Lemma phase4_final_eq question d db_out rag_out :
  phase4_final question d db_out rag_out
  = let evidence := build_evidence question d db_out rag_out in
    let raw := completion_text PHASE4_FINAL_SYSTEM (JsonDumps evidence) in
    let obj := parsed raw in
    let composed := py_or (dict_get1 obj "citations") (PList []) in
    ([Completed PHASE4_FINAL_SYSTEM (JsonDumps evidence)],
     match PyFloat.float
             (py_or (dict_get obj "quality_score" (PFloat (Fin 0)))
                    (PFloat (Fin 0))) with
     | Raise e => Raise e
     | Ok score =>
         Ok {| final_answer := py_or (dict_get1 obj "answer") (PStr APOLOGY);
               final_citations :=
                 match rag_out with
                 | Some r =>
                     if negb (truthy composed)
                        && match rag_sources r with
                           | [] => false
                           | _ => true
                           end
                     then PList (map PStr (rag_sources r))
                     else composed
                 | None => composed
                 end;
               final_notes := py_or (dict_get1 obj "notes") (PStr "");
               final_quality_score := score;
               final_quality_reason :=
                 py_or (dict_get1 obj "quality_reason") (PStr "");
               final_raw := raw;
               final_evidence := evidence |}
     end).
Proof.
  unfold phase4_final, parsed. rewrite generate_completion_spec, bind_ok.
  cbv zeta.
  destruct (PyFloat.float _); reflexivity.
Qed.

Lemma py_or_empty_list v :
  truthy (py_or v (PList [])) = false -> py_or v (PList []) = PList [].
Proof. unfold py_or. destruct (truthy v) eqn:E; [congruence|reflexivity]. Qed.

(** C8.  The citation backfill of [phase4_final].  If the composer's parsed
    citations are empty and the retrieval result carries sources, the
    citations are exactly those sources.  If the parsed citations are not
    empty they are returned as they are, whatever the retrieval sources.
    The returned citations are always one of the two: never a merge, never
    anything else. *)
Theorem citation_backfill question d db_out rag_out f :
  outcome (phase4_final question d db_out rag_out) = Ok f ->
  let raw := completion_text PHASE4_FINAL_SYSTEM
               (JsonDumps (build_evidence question d db_out rag_out)) in
  let composed := py_or (dict_get1 (parsed raw) "citations") (PList []) in
  (forall r,
     composed = PList [] -> rag_out = Some r -> rag_sources r <> [] ->
     final_citations f = PList (map PStr (rag_sources r)))
  /\ (composed <> PList [] -> final_citations f = composed)
  /\ (final_citations f = composed
      \/ exists r, rag_out = Some r
                   /\ final_citations f = PList (map PStr (rag_sources r))).
Proof.
  rewrite phase4_final_eq. cbv zeta. cbn [outcome snd].
  destruct (PyFloat.float _) as [score|e]; [|discriminate].
  intros [= <-]. cbn [final_citations].
  set (composed := py_or _ (PList [])).
  split; [|split].
  - intros r Hc -> Hsrc. rewrite Hc. cbn [truthy negb andb].
    destruct (rag_sources r); [congruence|reflexivity].
  - intros Hc. destruct rag_out as [r|]; [|reflexivity].
    destruct (truthy composed) eqn:Ht; [reflexivity|].
    apply py_or_empty_list in Ht. contradiction.
  - destruct rag_out as [r|]; [|now left].
    destruct (negb (truthy composed) && _); [right; eauto|now left].
Qed.

(** When the text of the router or of the composer fails structured
    parsing, the phase returns its defaults and raises nothing. *)
Lemma parse_failure_defaults question d db_out :
  (safe_json_loads (completion_text PHASE1_ROUTER_SYSTEM (Text question))
   = None ->
   exists r, outcome (phase1_route question) = Ok r
             /\ route r = PStr "both" /\ confidence r = Fin 0
             /\ reason r = PStr "fallback")
  /\
  (safe_json_loads
     (completion_text PHASE4_FINAL_SYSTEM
        (JsonDumps (build_evidence question d db_out None))) = None ->
   exists f, outcome (phase4_final question d db_out None) = Ok f
             /\ final_answer f = PStr APOLOGY
             /\ final_citations f = PList []
             /\ final_quality_score f = Fin 0).
Proof.
  split.
  - intros H. rewrite phase1_route_eq. cbv zeta. unfold parsed. rewrite H.
    eexists. split; [reflexivity|]. repeat split.
  - intros H. rewrite phase4_final_eq. cbv zeta. unfold parsed. rewrite H.
    eexists. split; [reflexivity|]. repeat split.
Qed.

(** *** The logs of the phases *)

Lemma events_phase1_route question :
  events (phase1_route question)
  = [Completed PHASE1_ROUTER_SYSTEM (Text question)].
Proof. rewrite phase1_route_eq. reflexivity. Qed.

Lemma events_phase4_final question d db_out rag_out :
  events (phase4_final question d db_out rag_out)
  = [Completed PHASE4_FINAL_SYSTEM
       (JsonDumps (build_evidence question d db_out rag_out))].
Proof. rewrite phase4_final_eq. reflexivity. Qed.

Lemma events_phase2_db question :
  exists rest,
    events (phase2_db question)
    = Completed PHASE2_DB_SQL_SYSTEM (Text question) :: rest
    /\ Forall (fun e => exists s, e = Executed s) rest.
Proof.
  rewrite phase2_db_eq. cbv zeta. destruct (negb (truthy _)).
  - exists []. split; [reflexivity|constructor].
  - eexists. split; [reflexivity|apply events_run_statement].
Qed.

Lemma existsb_none {A} (f : A -> bool) (l : list A) :
  Forall (fun x => f x = false) l -> existsb f l = false.
Proof. induction 1 as [|x l Hx _ IH]; cbn; [|rewrite Hx, IH]; reflexivity. Qed.

Lemma flags_phase2_db question :
  query_phase_ran (events (phase2_db question)) = true
  /\ retrieval_phase_ran (events (phase2_db question)) = false
  /\ composer_ran (events (phase2_db question)) = false.
Proof.
  destruct (events_phase2_db question) as (rest & -> & Hrest).
  unfold query_phase_ran, retrieval_phase_ran, composer_ran. cbn [existsb].
  split; [reflexivity|].
  split; cbn [is_completion_of orb]; apply existsb_none;
    (eapply Forall_impl; [|exact Hrest]); now intros ? [? ->].
Qed.

Lemma flags_phase3_rag question k :
  query_phase_ran (events (phase3_rag question k)) = false
  /\ retrieval_phase_ran (events (phase3_rag question k)) = true
  /\ composer_ran (events (phase3_rag question k)) = false.
Proof.
  destruct (events_phase3_rag question k) as (rest & -> & Hrest).
  unfold query_phase_ran, retrieval_phase_ran, composer_ran. cbn [existsb].
  split; [|split; [reflexivity|]];
    cbn [is_completion_of orb]; apply existsb_none;
    (eapply Forall_impl; [|exact Hrest]); now intros ? [? ->].
Qed.

Lemma eq_str_true v s : eq_str v s = true -> v = PStr s.
Proof.
  destruct v; cbn; try discriminate. unfold PyStr.eqb.
  destruct (list_eq_dec N.eq_dec s0 s); [congruence|discriminate].
Qed.

(** The route of a decision is always one of the four. *)
Lemma phase1_route_enum question d :
  outcome (phase1_route question) = Ok d ->
  route d = PStr "db" \/ route d = PStr "rag" \/ route d = PStr "both"
  \/ route d = PStr "general".
Proof.
  rewrite phase1_route_eq. cbv zeta. cbn [outcome snd].
  destruct (PyFloat.float _); [|discriminate].
  intros [= <-]. cbn [route].
  set (v := dict_get _ "route" _).
  destruct (eq_str v "db") eqn:E1;
    [apply eq_str_true in E1; rewrite E1; auto|].
  destruct (eq_str v "rag") eqn:E2;
    [apply eq_str_true in E2; rewrite E2; auto|].
  destruct (eq_str v "both") eqn:E3;
    [apply eq_str_true in E3; rewrite E3; auto|].
  destruct (eq_str v "general") eqn:E4;
    [apply eq_str_true in E4; rewrite E4; auto|].
  cbn. auto.
Qed.

(** *** The orchestrator *)

Ltac eval_route_tests :=
  repeat match goal with
  | |- context [in_strs (PStr ?s) ?l] =>
      let b := eval vm_compute in (in_strs (PStr s) l) in
      change (in_strs (PStr s) l) with b
  | |- context [eq_str (PStr ?s) ?t] =>
      let b := eval vm_compute in (eq_str (PStr s) t) in
      change (eq_str (PStr s) t) with b
  end.

Ltac run_step H :=
  first
    [ rewrite bind_ok in H
    | rewrite bind_raise in H
    | progress (unfold ret in H)
    | progress (cbn [fst snd events outcome app andb negb] in H)
    | progress (cbv beta iota in H)
    | match goal with
      | E : db_ok _ = _ |- _ => rewrite E in H
      end
    | match type of H with
      | context [phase4_final ?a ?b ?c ?d] =>
          destruct (phase4_final a b c d) as [? [?|?]] eqn:?
      end ].

(** What a run that returns has done: the router decided, the branches in
    the envelope's debug trace are the phases that ran, the composer
    returned, and the log is the router's call followed by the logs of those
    phases. *)
Lemma run_pipeline_inv question k log env :
  run_pipeline question k = (log, Ok env) ->
  exists d f,
    outcome (phase1_route question) = Ok d
    /\ outcome (phase4_final question d (debug_db_out (debug env))
                             (debug_rag_out (debug env))) = Ok f
    /\ env = envelope d (debug_db_out (debug env))
                      (debug_rag_out (debug env)) f
    /\ match debug_db_out (debug env) with
       | Some r =>
           in_strs (route d) [txt "db"; txt "both"] = true
           /\ outcome (phase2_db question) = Ok r
       | None => in_strs (route d) [txt "db"; txt "both"] = false
       end
    /\ match debug_rag_out (debug env) with
       | Some r =>
           outcome (phase3_rag question k) = Ok r
           /\ (in_strs (route d) [txt "rag"; txt "both"] = true
               \/ (route d = PStr "db"
                   /\ exists q, debug_db_out (debug env) = Some q
                                /\ db_ok q = false))
       | None =>
           in_strs (route d) [txt "rag"; txt "both"] = false
           /\ (route d = PStr "db" ->
               exists q, debug_db_out (debug env) = Some q
                         /\ db_ok q = true)
       end
    /\ log = Completed PHASE1_ROUTER_SYSTEM (Text question)
             :: match debug_db_out (debug env) with
                | Some _ => events (phase2_db question)
                | None => []
                end
             ++ match debug_rag_out (debug env) with
                | Some _ => events (phase3_rag question k)
                | None => []
                end
             ++ events (phase4_final question d (debug_db_out (debug env))
                                     (debug_rag_out (debug env))).
Proof.
  unfold run_pipeline. intros H.
  pose proof (events_phase1_route question) as L1.
  pose proof (@phase1_route_enum question) as Henum.
  destruct (phase1_route question) as [l1 [d|e]]; [|discriminate H].
  cbn [events fst] in L1. subst l1.
  specialize (Henum d eq_refl).
  rewrite bind_ok in H. cbv beta in H. cbn [app] in H.
  exists d.
  destruct (phase2_db question) as [l2 [r2|e2]] eqn:E2;
  destruct (phase3_rag question k) as [l3 [r3|e3]] eqn:E3;
  destruct Henum as [Hr|[Hr|[Hr|Hr]]]; rewrite Hr in H |- *;
    revert H; eval_route_tests; intros H.
  all: try (destruct (db_ok r2) eqn:Eok).
  all: repeat run_step H.
  all: try discriminate H.
  all: injection H as <- <-.
  all: match goal with
       | E : phase4_final _ _ _ _ = (_, Ok ?f) |- _ =>
           exists f; cbn [debug debug_db_out debug_rag_out envelope];
           rewrite E
       end.
  all: cbn [outcome events fst snd].
  all: rewrite ?app_nil_r, <- ?app_assoc.
  all: repeat split; eauto; try discriminate.
Qed.

Lemma flags_run_pipeline question k log env :
  run_pipeline question k = (log, Ok env) ->
  query_phase_ran log
  = match debug_db_out (debug env) with Some _ => true | None => false end
  /\ retrieval_phase_ran log
     = match debug_rag_out (debug env) with Some _ => true | None => false end
  /\ composer_ran log = true.
Proof.
  intros H. apply run_pipeline_inv in H.
  destruct H as (d & f & _ & _ & _ & _ & _ & ->).
  destruct (flags_phase2_db question) as (Q2 & R2 & C2).
  destruct (flags_phase3_rag question k) as (Q3 & R3 & C3).
  rewrite events_phase4_final.
  unfold query_phase_ran, retrieval_phase_ran, composer_ran in *.
  cbn [existsb is_completion_of orb]. rewrite !existsb_app.
  destruct (debug_db_out (debug env)), (debug_rag_out (debug env));
    rewrite ?Q2, ?R2, ?C2, ?Q3, ?R3, ?C3; cbn; auto.
Qed.


Lemma phase4_final_ok question d db_out rag_out f :
  outcome (phase4_final question d db_out rag_out) = Ok f ->
  let raw := completion_text PHASE4_FINAL_SYSTEM
               (JsonDumps (build_evidence question d db_out rag_out)) in
  final_raw f = raw
  /\ PyFloat.float (py_or (dict_get (parsed raw) "quality_score"
                                    (PFloat (Fin 0)))
                          (PFloat (Fin 0)))
     = Ok (final_quality_score f)
  /\ (rag_out = None ->
      final_citations f
      = py_or (dict_get1 (parsed raw) "citations") (PList [])).
Proof.
  rewrite phase4_final_eq. cbv zeta. cbn [outcome snd].
  destruct (PyFloat.float _) as [score|e]; [|discriminate].
  intros [= <-]. cbn [final_raw final_quality_score final_citations].
  repeat split. now intros ->.
Qed.

(** On route general neither branch has run. *)
Lemma general_route_branches question k log env d :
  run_pipeline question k = (log, Ok env) ->
  outcome (phase1_route question) = Ok d ->
  route d = PStr "general" ->
  debug_db_out (debug env) = None /\ debug_rag_out (debug env) = None.
Proof.
  intros Hrun H1 Hg.
  destruct (run_pipeline_inv _ _ _ _ Hrun)
    as (d' & f & H1' & _ & _ & Hdb & Hrag & _).
  rewrite H1 in H1'. injection H1' as <-. rewrite Hg in Hdb, Hrag.
  split.
  - destruct (debug_db_out (debug env)); [|reflexivity].
    destruct Hdb as (Hdb & _). vm_compute in Hdb. discriminate.
  - destruct (debug_rag_out (debug env)); [|reflexivity].
    destruct Hrag as (_ & [Hr|(Hr & _)]); [vm_compute in Hr|]; discriminate.
Qed.

(** C4 (as amended).  On route general the retrieval phase does not run, so
    nothing is backfilled: the citations of the envelope are exactly what
    the composer's text carries in its citations field, and are empty when
    that field is missing, empty or otherwise falsy, or when the text does
    not parse.  The code does not empty them itself. *)
Theorem general_route_citations question k d env :
  outcome (phase1_route question) = Ok d ->
  route d = PStr "general" ->
  outcome (run_pipeline question k) = Ok env ->
  let raw := completion_text PHASE4_FINAL_SYSTEM
               (JsonDumps (build_evidence question d None None)) in
  debug_rag_out (debug env) = None
  /\ citations env = py_or (dict_get1 (parsed raw) "citations") (PList [])
  /\ (truthy (dict_get1 (parsed raw) "citations") = false ->
      citations env = PList []).
Proof.
  intros H1 Hg Henv raw.
  assert (Hrun : run_pipeline question k
                 = (events (run_pipeline question k), Ok env)).
  { rewrite (M_eta (run_pipeline question k)) at 1. now rewrite Henv. }
  destruct (general_route_branches _ _ _ _ _ Hrun H1 Hg) as (Hdb & Hrag).
  destruct (run_pipeline_inv _ _ _ _ Hrun)
    as (d' & f & H1' & Hf & Eenv & _).
  rewrite H1 in H1'. injection H1' as <-.
  rewrite Hdb, Hrag in Hf, Eenv.
  destruct (phase4_final_ok _ _ _ _ _ Hf) as (_ & _ & Hc).
  specialize (Hc eq_refl). fold raw in Hc.
  assert (Hcit : citations env = final_citations f)
    by (rewrite Eenv; reflexivity).
  rewrite Hcit, Hc. repeat split; [assumption|].
  unfold py_or. now intros ->.
Qed.

(** C6 (as amended).  In a run that returns, the quality_score of the
    envelope is the quality_score of the FinalAnswer, and that is the float
    of the quality_score field of the composer's parsed text, taken as it
    is: 0.0 when the text does not parse or the field is missing or falsy,
    and otherwise the float of the model's own value, which lies in [0,1]
    only when the model kept to that interval. *)
Theorem quality_score_is_model_score question k env :
  outcome (run_pipeline question k) = Ok env ->
  let obj := parsed (debug_final_raw (debug env)) in
  (exists d f,
     outcome (phase4_final question d (debug_db_out (debug env))
                           (debug_rag_out (debug env))) = Ok f
     /\ quality_score env = final_quality_score f)
  /\ PyFloat.float (py_or (dict_get obj "quality_score" (PFloat (Fin 0)))
                          (PFloat (Fin 0)))
     = Ok (quality_score env)
  /\ (truthy (dict_get obj "quality_score" (PFloat (Fin 0))) = false ->
      quality_score env = Fin 0)
  /\ (truthy (dict_get obj "quality_score" (PFloat (Fin 0))) = true ->
      PyFloat.float (dict_get obj "quality_score" (PFloat (Fin 0)))
      = Ok (quality_score env)).
Proof.
  intros Henv obj.
  assert (Hrun : run_pipeline question k
                 = (events (run_pipeline question k), Ok env)).
  { rewrite (M_eta (run_pipeline question k)) at 1. now rewrite Henv. }
  destruct (run_pipeline_inv _ _ _ _ Hrun)
    as (d & f & _ & Hf & Eenv & _).
  destruct (phase4_final_ok _ _ _ _ _ Hf) as (Hraw & Hscore & _).
  assert (Hq : quality_score env = final_quality_score f)
    by (rewrite Eenv; reflexivity).
  assert (Hr : debug_final_raw (debug env) = final_raw f)
    by (rewrite Eenv; reflexivity).
  unfold obj. rewrite Hr, Hraw, Hq.
  split; [exists d, f; split; [assumption|reflexivity]|].
  split; [assumption|].
  split.
  - intros Hfalsy. unfold py_or in Hscore. rewrite Hfalsy in Hscore.
    cbn in Hscore. congruence.
  - intros Ht. unfold py_or in Hscore. now rewrite Ht in Hscore.
Qed.

(** C10.  In a run that returns, the mode of the envelope is the route the
    router decided.  In particular, when route db falls back to retrieval
    because the query result is not ok, the retrieval phase has run and the
    mode is still "db". *)
Theorem mode_is_decided_route question k env :
  outcome (run_pipeline question k) = Ok env ->
  exists d,
    outcome (phase1_route question) = Ok d
    /\ debug_route (debug env) = d
    /\ mode env = route d
    /\ (forall r,
          route d = PStr "db" ->
          debug_db_out (debug env) = Some r -> db_ok r = false ->
          retrieval_phase_ran (events (run_pipeline question k)) = true
          /\ (exists s, debug_rag_out (debug env) = Some s)
          /\ mode env = PStr "db").
Proof.
  intros Henv.
  assert (Hrun : run_pipeline question k
                 = (events (run_pipeline question k), Ok env)).
  { rewrite (M_eta (run_pipeline question k)) at 1. now rewrite Henv. }
  destruct (flags_run_pipeline _ _ _ _ Hrun) as (_ & FR & _).
  destruct (run_pipeline_inv _ _ _ _ Hrun)
    as (d & f & H1 & _ & Eenv & _ & Hrag & _).
  exists d.
  assert (Hm : mode env = route d) by (rewrite Eenv; reflexivity).
  assert (Hd : debug_route (debug env) = d) by (rewrite Eenv; reflexivity).
  repeat split; try assumption.
  - rewrite FR. destruct (debug_rag_out (debug env)); [reflexivity|].
    destruct Hrag as (_ & Hq). destruct (Hq H) as (q & Hq1 & Hq2).
    congruence.
  - destruct (debug_rag_out (debug env)) as [s|]; [eauto|].
    destruct Hrag as (_ & Hq). destruct (Hq H) as (q & Hq1 & Hq2).
    congruence.
  - congruence.
Qed.

End Pipeline.

(** * The response parser *)

Lemma eqb_eq (a b : pystr) : PyStr.eqb a b = true <-> a = b.
Proof.
  unfold PyStr.eqb. destruct (list_eq_dec N.eq_dec a b); split; congruence.
Qed.

Lemma lstrip_app (p r : pystr) (c : N) :
  isspace c = false -> lstrip (p ++ c :: r) = lstrip p ++ c :: r.
Proof.
  intros Hc. induction p as [|a p IH]; cbn [lstrip app].
  - now rewrite Hc.
  - destruct (isspace a); [exact IH|reflexivity].
Qed.

Lemma rstrip_app (l s : pystr) (c : N) :
  isspace c = false -> rstrip (l ++ c :: s) = l ++ c :: rstrip s.
Proof.
  intros Hc. unfold rstrip.
  rewrite rev_app_distr. cbn [rev]. rewrite <- app_assoc. cbn [app].
  rewrite (lstrip_app _ _ _ Hc), rev_app_distr. cbn [rev].
  rewrite rev_involutive, <- app_assoc. reflexivity.
Qed.

Lemma In_lstrip (c : N) (s : pystr) : In c (lstrip s) -> In c s.
Proof.
  induction s as [|a s IH]; cbn [lstrip]; [auto|].
  destruct (isspace a); [right; auto|auto].
Qed.

Lemma In_rstrip (c : N) (s : pystr) : In c (rstrip s) -> In c s.
Proof.
  unfold rstrip. intros H. apply in_rev in H. apply In_lstrip in H.
  now apply in_rev.
Qed.

Lemma lstrip_spaces (s : pystr) : forallb isspace s = true -> lstrip s = [].
Proof.
  induction s as [|a s IH]; cbn; [reflexivity|].
  destruct (isspace a); [exact IH|discriminate].
Qed.

Lemma rstrip_spaces (s : pystr) : forallb isspace s = true -> rstrip s = [].
Proof.
  intros H. unfold rstrip. rewrite lstrip_spaces; [reflexivity|].
  rewrite forallb_forall in *. intros x Hx. apply H. now apply in_rev.
Qed.

Lemma find_ge (c : N) (s : pystr) : find c s = -1 \/ 0 <= find c s.
Proof.
  induction s as [|x s IH]; cbn [find]; [now left|].
  destruct (x =? c)%N; [right; lia|].
  destruct (find c s =? -1) eqn:E; [now left|right].
  apply Z.eqb_neq in E. lia.
Qed.

Lemma find_absent (c : N) (s : pystr) : find c s = -1 -> ~ In c s.
Proof.
  induction s as [|x s IH]; cbn [find In]; [tauto|].
  destruct (x =? c)%N eqn:E; [discriminate|].
  apply N.eqb_neq in E.
  destruct (find c s =? -1) eqn:F.
  - apply Z.eqb_eq in F. intros _ [H|H]; [congruence|now apply IH].
  - destruct (find_ge c s); apply Z.eqb_neq in F; lia.
Qed.

Lemma rfind_ge (c : N) (s : pystr) : rfind c s = -1 \/ 0 <= rfind c s.
Proof.
  induction s as [|x s IH]; cbn [rfind]; [now left|].
  destruct (rfind c s =? -1) eqn:E.
  - destruct (x =? c)%N; [right; lia|now left].
  - apply Z.eqb_neq in E. right. lia.
Qed.

Lemma rfind_absent (c : N) (s : pystr) : rfind c s = -1 -> ~ In c s.
Proof.
  induction s as [|x s IH]; cbn [rfind In]; [tauto|].
  destruct (rfind c s =? -1) eqn:F.
  - apply Z.eqb_eq in F. destruct (x =? c)%N eqn:E; [discriminate|].
    apply N.eqb_neq in E. intros _ [H|H]; [congruence|now apply IH].
  - destruct (rfind_ge c s); apply Z.eqb_neq in F; lia.
Qed.

Lemma find_first (c : N) (p r : pystr) :
  ~ In c p -> find c (p ++ c :: r) = Z.of_nat (List.length p).
Proof.
  induction p as [|x p IH]; intros Hp.
  - cbn [app find]. now rewrite N.eqb_refl.
  - cbn [app find]. cbn [In] in Hp.
    destruct (x =? c)%N eqn:E; [apply N.eqb_eq in E; tauto|].
    rewrite IH by tauto.
    destruct (Z.of_nat (List.length p) =? -1) eqn:F; [lia|].
    cbn [List.length]. lia.
Qed.

Lemma rfind_absent_inv (c : N) (s : pystr) : ~ In c s -> rfind c s = -1.
Proof.
  induction s as [|x s IH]; cbn [rfind In]; [reflexivity|].
  intros H. rewrite IH by tauto. cbn.
  destruct (x =? c)%N eqn:E; [apply N.eqb_eq in E; tauto|reflexivity].
Qed.

Lemma rfind_last (c : N) (l s : pystr) :
  ~ In c s -> rfind c (l ++ c :: s) = Z.of_nat (List.length l).
Proof.
  intros Hs. induction l as [|x l IH].
  - cbn [app rfind]. rewrite (rfind_absent_inv _ _ Hs). cbn.
    now rewrite N.eqb_refl.
  - cbn [app rfind]. rewrite IH.
    destruct (Z.of_nat (List.length l) =? -1) eqn:F; [lia|].
    cbn [List.length]. lia.
Qed.

Lemma slice_middle (p t s : pystr) :
  slice (p ++ t ++ s) (Z.of_nat (List.length p))
        (Z.of_nat (List.length p) + Z.of_nat (List.length t)) = t.
Proof.
  unfold slice.
  replace (Z.to_nat (Z.of_nat (List.length p) + Z.of_nat (List.length t)
                     - Z.of_nat (List.length p))) with (List.length t) by lia.
  rewrite Nat2Z.id, skipn_app, skipn_all, Nat.sub_diag. cbn [skipn app].
  rewrite firstn_app, firstn_all, Nat.sub_diag. cbn [firstn].
  apply app_nil_r.
Qed.

Lemma match_nonempty {A B} (l : list A) (x y : B) :
  l <> [] -> match l with [] => x | _ :: _ => y end = y.
Proof. destruct l; congruence. Qed.

(** What [safe_json_loads] does with a text that is already stripped, has
    no opening brace before [t] and no closing brace after it, where [t]
    goes from an opening to a closing brace. *)
Lemma safe_json_loads_stripped (p body s : pystr) :
  let t := 123%N :: body ++ [125%N] in
  strip (p ++ t ++ s) = p ++ t ++ s ->
  ~ In 123%N p -> ~ In 125%N s ->
  Json.loads (p ++ t ++ s) = None \/ (p = [] /\ s = []) ->
  safe_json_loads (p ++ t ++ s)
  = match Json.loads t with
    | Some (PDict obj) => Some obj
    | _ => None
    end.
Proof.
  intros t Hstrip Hp Hs Hdirect. unfold safe_json_loads. rewrite Hstrip.
  rewrite match_nonempty by (destruct p; discriminate).
  clear Hstrip.
  assert (Hstart : find 123 (p ++ t ++ s) = Z.of_nat (List.length p))
    by (apply find_first; assumption).
  assert (Hend : rfind 125 (p ++ t ++ s)
                 = Z.of_nat (List.length p) + Z.of_nat (List.length t) - 1).
  { replace (p ++ t ++ s) with ((p ++ 123%N :: body) ++ 125%N :: s).
    - rewrite rfind_last by assumption. unfold t.
      rewrite !length_app. cbn [List.length]. rewrite length_app.
      cbn [List.length]. lia.
    - unfold t. rewrite <- !app_assoc. cbn [app]. rewrite <- app_assoc.
      reflexivity. }
  assert (Hlen : (2 <= List.length t)%nat).
  { unfold t. cbn [List.length]. rewrite length_app. cbn [List.length]. lia. }
  assert (Hwindow :
    (if negb (find 123 (p ++ t ++ s) =? -1)
        && negb (rfind 125 (p ++ t ++ s) =? -1)
        && (rfind 125 (p ++ t ++ s) >? find 123 (p ++ t ++ s))
     then match Json.loads (slice (p ++ t ++ s) (find 123 (p ++ t ++ s))
                                  (rfind 125 (p ++ t ++ s) + 1)) with
          | Some (PDict obj) => Some obj
          | _ => None
          end
     else None)
    = match Json.loads t with
      | Some (PDict obj) => Some obj
      | _ => None
      end).
  { rewrite Hstart, Hend.
    replace (Z.of_nat (List.length p) + Z.of_nat (List.length t) - 1 + 1)
      with (Z.of_nat (List.length p) + Z.of_nat (List.length t)) by lia.
    rewrite slice_middle.
    replace (Z.of_nat (List.length p) =? -1) with false
      by (symmetry; apply Z.eqb_neq; lia).
    replace (Z.of_nat (List.length p) + Z.of_nat (List.length t) - 1 =? -1)
      with false by (symmetry; apply Z.eqb_neq; lia).
    replace (Z.of_nat (List.length p) + Z.of_nat (List.length t) - 1
             >? Z.of_nat (List.length p)) with true
      by (symmetry; apply Z.gtb_lt; lia).
    reflexivity. }
  destruct Hdirect as [Hnone|[-> ->]].
  - rewrite Hnone. exact Hwindow.
  - cbn [app] in *. rewrite app_nil_r in *.
    destruct (Json.loads t) as [[]|]; try reflexivity. exact Hwindow.
Qed.

Lemma lstrip_idem (s : pystr) : lstrip (lstrip s) = lstrip s.
Proof.
  induction s as [|a s IH]; [reflexivity|].
  cbn [lstrip]. destruct (isspace a) eqn:E; [exact IH|].
  cbn [lstrip]. now rewrite E.
Qed.

Lemma rstrip_idem (s : pystr) : rstrip (rstrip s) = rstrip s.
Proof. unfold rstrip. now rewrite rev_involutive, lstrip_idem. Qed.

(** [safe_json_loads] only looks at the stripped text. *)
Lemma safe_json_loads_strip (x y : pystr) :
  strip x = strip y -> safe_json_loads x = safe_json_loads y.
Proof. unfold safe_json_loads. now intros ->. Qed.

Lemma strip_wrapped (prefix body suffix : pystr) :
  strip (prefix ++ (123%N :: body ++ [125%N]) ++ suffix)
  = lstrip prefix ++ (123%N :: body ++ [125%N]) ++ rstrip suffix.
Proof.
  unfold strip. cbn [app]. rewrite lstrip_app by reflexivity.
  rewrite <- app_assoc. cbn [app].
  replace (lstrip prefix ++ 123%N :: body ++ 125%N :: suffix)
    with ((lstrip prefix ++ 123%N :: body) ++ 125%N :: suffix)
    by (rewrite <- app_assoc; reflexivity).
  rewrite rstrip_app by reflexivity.
  rewrite <- !app_assoc. reflexivity.
Qed.

(** C9 (as amended).  Let [t] be a text that goes from an opening brace to
    a closing brace.  If the prose before it holds no opening brace and the
    prose after it no closing brace, and the wrapped text as a whole is not
    itself decodable (or the prose is only whitespace), then
    [safe_json_loads] of the wrapped text is [safe_json_loads] of [t] alone:
    the object [t] decodes to, or none. *)
Theorem safe_json_loads_round_trip (prefix body suffix : pystr) :
  let t := 123%N :: body ++ [125%N] in
  find 123 prefix = -1 ->
  rfind 125 suffix = -1 ->
  Json.loads (strip (prefix ++ t ++ suffix)) = None
  \/ forallb isspace prefix && forallb isspace suffix = true ->
  safe_json_loads (prefix ++ t ++ suffix) = safe_json_loads t
  /\ safe_json_loads t
     = match Json.loads t with
       | Some (PDict obj) => Some obj
       | _ => None
       end.
Proof.
  intros t Hp Hs Hdirect. subst t.
  set (t := 123%N :: body ++ [125%N]) in *.
  apply find_absent in Hp. apply rfind_absent in Hs.
  assert (Halone : safe_json_loads t
                   = match Json.loads t with
                     | Some (PDict obj) => Some obj
                     | _ => None
                     end).
  { pose proof (safe_json_loads_stripped [] body []) as H.
    cbn zeta in H. cbn [app] in H. rewrite app_nil_r in H. apply H; auto.
    pose proof (strip_wrapped [] body []) as S.
    change (lstrip []) with (@nil N) in S.
    change (rstrip []) with (@nil N) in S.
    cbn [app] in S. rewrite app_nil_r in S. exact S. }
  split; [|exact Halone]. rewrite Halone.
  pose proof (strip_wrapped prefix body suffix) as S. fold t in S.
  pose proof (strip_wrapped (lstrip prefix) body (rstrip suffix)) as S'.
  fold t in S'. rewrite lstrip_idem, rstrip_idem in S'.
  rewrite (safe_json_loads_strip (prefix ++ t ++ suffix)
             (lstrip prefix ++ t ++ rstrip suffix)) by congruence.
  apply (safe_json_loads_stripped (lstrip prefix) body (rstrip suffix)).
  - exact S'.
  - intros H. apply Hp. now apply In_lstrip.
  - intros H. apply Hs. now apply In_rstrip.
  - destruct Hdirect as [Hnone|Hspaces].
    + left. rewrite S in Hnone. exact Hnone.
    + right. apply andb_prop in Hspaces. destruct Hspaces as [A B].
      split; [now apply lstrip_spaces|now apply rstrip_spaces].
Qed.

(** * Further properties of the helpers *)

(** X1.  [clamp_limit] with a default inside the range always returns a
    limit between 1 and [max_n]; it keeps a limit that is already in the
    range, and clamping twice is clamping once. *)
Theorem clamp_limit_bounds (n default max_n : Z) :
  0 < default <= max_n ->
  0 < clamp_limit n default max_n <= max_n
  /\ (0 < n <= max_n -> clamp_limit n default max_n = n)
  /\ clamp_limit (clamp_limit n default max_n) default max_n
     = clamp_limit n default max_n.
Proof.
  intros H. unfold clamp_limit.
  destruct (n <=? 0) eqn:E.
  - apply Z.leb_le in E.
    replace (default <=? 0) with false by (symmetry; apply Z.leb_gt; lia).
    repeat split; lia.
  - apply Z.leb_gt in E.
    replace (Z.min n max_n <=? 0) with false by (symmetry; apply Z.leb_gt; lia).
    repeat split; lia.
Qed.

Lemma clamp_limit_bounds_witness :
  0 < clamp_limit 1000 50 200 <= 200
  /\ (0 < 1000 <= 200 -> clamp_limit 1000 50 200 = 1000)
  /\ clamp_limit (clamp_limit 1000 50 200) 50 200 = clamp_limit 1000 50 200.
Proof. apply (clamp_limit_bounds 1000 50 200). lia. Defined.

Lemma lstrip_head (s : pystr) :
  match lstrip s with
  | [] => True
  | c :: _ => isspace c = false
  end.
Proof.
  induction s as [|a s IH]; cbn [lstrip]; [exact I|].
  destruct (isspace a) eqn:E; [exact IH|exact E].
Qed.

Lemma rstrip_cons (c : N) (r : pystr) :
  isspace c = false -> rstrip (c :: r) = c :: rstrip r.
Proof. intros H. apply (rstrip_app [] r c H). Qed.

Lemma strip_idem (s : pystr) : strip (strip s) = strip s.
Proof.
  unfold strip. pose proof (lstrip_head s) as H.
  destruct (lstrip s) as [|c r]; [reflexivity|].
  rewrite (rstrip_cons _ _ H). cbn [lstrip]. rewrite H.
  rewrite (rstrip_cons _ _ H), rstrip_idem. reflexivity.
Qed.

Lemma lstrip_blank (ws s : pystr) :
  blank ws = true -> lstrip (ws ++ s) = lstrip s.
Proof.
  unfold blank. induction ws as [|a ws IH]; cbn; [reflexivity|].
  destruct (isspace a); [exact IH|discriminate].
Qed.

Lemma blank_rev (ws : pystr) : blank ws = true -> blank (rev ws) = true.
Proof.
  unfold blank. rewrite !forallb_forall. intros H x Hx. apply H.
  now apply in_rev.
Qed.

Lemma rstrip_blank (s ws : pystr) :
  blank ws = true -> rstrip (s ++ ws) = rstrip s.
Proof.
  intros H. unfold rstrip. rewrite rev_app_distr.
  now rewrite (lstrip_blank _ _ (blank_rev _ H)).
Qed.

Lemma strip_blank_around (ws1 s ws2 : pystr) :
  blank ws1 = true -> blank ws2 = true -> strip (ws1 ++ s ++ ws2) = strip s.
Proof.
  intros H1 H2. unfold strip. rewrite (lstrip_blank _ _ H1).
  pose proof (lstrip_head s) as Hh.
  destruct (lstrip s) as [|c r] eqn:E.
  - assert (Hs : blank s = true).
    { clear - E. unfold blank. induction s as [|a s IH]; [reflexivity|].
      cbn in *. destruct (isspace a); [auto|discriminate]. }
    rewrite (lstrip_blank _ _ Hs). unfold blank in H2.
    now rewrite (lstrip_spaces _ H2).
  - assert (Hl : lstrip (s ++ ws2) = (c :: r) ++ ws2).
    { clear - E Hh. induction s as [|a s IH]; [discriminate|].
      cbn [lstrip app] in *. destruct (isspace a); [auto|].
      now injection E as -> ->. }
    rewrite Hl. now apply rstrip_blank.
Qed.

(** X2.  [safe_json_loads] returns none for an empty or whitespace-only
    text, and surrounding whitespace never changes its result. *)
Theorem safe_json_loads_whitespace (ws1 raw ws2 : pystr) :
  blank ws1 = true -> blank ws2 = true ->
  safe_json_loads ws1 = None
  /\ safe_json_loads (ws1 ++ raw ++ ws2) = safe_json_loads raw.
Proof.
  intros H1 H2. split.
  - unfold safe_json_loads, strip.
    unfold blank in H1. now rewrite (lstrip_spaces _ H1).
  - apply safe_json_loads_strip. rewrite (strip_blank_around _ _ _ H1 H2).
    reflexivity.
Qed.

Lemma safe_json_loads_whitespace_witness :
  safe_json_loads (txt "  ") = None
  /\ safe_json_loads (txt "  " ++ dq "{'route': 'rag'}" ++ nl)
     = safe_json_loads (dq "{'route': 'rag'}").
Proof.
  apply (safe_json_loads_whitespace (txt "  ") (dq "{'route': 'rag'}") nl);
    reflexivity.
Defined.

(** X3.  When the whole text is valid JSON but not an object (an array, a
    string, a number, a literal), [safe_json_loads] returns none and does
    not look for an object inside it; when the whole text is an object, it
    returns that object. *)
Theorem safe_json_loads_direct (raw : pystr) (v : pyval) :
  Json.loads (strip raw) = Some v ->
  safe_json_loads raw
  = match v with
    | PDict obj => Some obj
    | _ => None
    end.
Proof.
  intros H. unfold safe_json_loads. rewrite H.
  destruct (strip raw) eqn:E; [|destruct v; reflexivity].
  vm_compute in H. discriminate H.
Qed.

Lemma safe_json_loads_direct_witness :
  safe_json_loads (dq "[{'route': 'db'}]") = None.
Proof.
  apply (safe_json_loads_direct (dq "[{'route': 'db'}]")
           (PList [PDict [(txt "route", PStr "db")]])).
  vm_compute. reflexivity.
Defined.

(** * Examples and counterexamples on concrete collaborators *)

Import Examples.



(** C1, at a generator that emits a DELETE and at one that declines. *)
Lemma phase2_db_executes_model_sql_witness :
  statements (events (phase2_db deleting (store_with 0) question))
  = PRAGMAS ++ [txt "DELETE FROM transactions"]
  /\ statements (events (phase2_db declining (store_with 0) question)) = [].
Proof.
  split.
  - apply (proj2 (phase2_db_executes_model_sql deleting (store_with 0)
                    question) "DELETE FROM transactions").
    + vm_compute. reflexivity.
    + discriminate.
    + intros p Hp. exists []. cbn in Hp.
      destruct Hp as [<-|[<-|[<-|[]]]]; vm_compute; reflexivity.
  - apply (proj1 (phase2_db_executes_model_sql declining (store_with 0)
                    question)).
    vm_compute. reflexivity.
Defined.

(** C1 as stated fails: the model's DELETE is passed to the store. *)
Lemma phase2_db_allow_list_counterexample :
  ~ (forall chat store question statement,
       In statement (statements (events (phase2_db chat store question))) ->
       read_only_statement statement = true).
Proof.
  intros H.
  specialize (H deleting (store_with 0) question
                (txt "DELETE FROM transactions")).
  assert (Hin : In (txt "DELETE FROM transactions")
                   (statements (events (phase2_db deleting (store_with 0)
                                                  question)))).
  { vm_compute. auto 6. }
  specialize (H Hin). vm_compute in H. discriminate H.
Qed.

(** C5: a confidence, or a quality_score, that is not a number makes the
    phase raise [ValueError] instead of falling back to its default, and the
    run ends there. *)
Theorem non_numeric_field_raises :
  outcome (phase1_route wordy_router question) = Raise ValueError
  /\ outcome (run_pipeline wordy_router (store_with 0) index question 5)
     = Raise ValueError
  /\ (exists d,
        outcome (phase1_route wordy_composer question) = Ok d
        /\ outcome (phase4_final wordy_composer question d None None)
           = Raise ValueError)
  /\ outcome (run_pipeline wordy_composer (store_with 0) index question 5)
     = Raise ValueError.
Proof.
  split; [vm_compute; reflexivity|].
  split; [vm_compute; reflexivity|].
  split; [|vm_compute; reflexivity].
  eexists. split; vm_compute; reflexivity.
Qed.



(** C4, on route general with a composer that cites a document. *)
Lemma general_route_citations_witness :
  exists env,
    outcome (run_pipeline chatty (store_with 0) index question 5) = Ok env
    /\ debug_rag_out (debug env) = None
    /\ citations env = PList [PStr "Bhatla.pdf p.3"].
Proof.
  eexists. split; [vm_compute; reflexivity|].
  pose proof (general_route_citations chatty (store_with 0) index question 5
                _ _ ltac:(vm_compute; reflexivity) eq_refl
                ltac:(vm_compute; reflexivity)) as H.
  cbv zeta in H. destruct H as (Hrag & Hc & _).
  split; [exact Hrag|]. rewrite Hc. vm_compute. reflexivity.
Defined.

(** C4 as stated fails: on route general the composer's own citations go
    through. *)
Lemma general_route_citations_counterexample :
  ~ (forall chat store index question k d env,
       outcome (phase1_route chat question) = Ok d ->
       route d = PStr "general" ->
       outcome (run_pipeline chat store index question k) = Ok env ->
       citations env = PList []).
Proof.
  intros H.
  specialize (H chatty (store_with 0) index question 5 _ _
                ltac:(vm_compute; reflexivity) eq_refl
                ltac:(vm_compute; reflexivity)).
  vm_compute in H. discriminate H.
Qed.

(** C6, on a composer that scores itself 5. *)
Lemma quality_score_is_model_score_witness :
  exists env,
    outcome (run_pipeline chatty (store_with 0) index question 5) = Ok env
    /\ quality_score env = Fin 5
    /\ in_unit_interval (quality_score env) = false.
Proof.
  eexists. split; [vm_compute; reflexivity|].
  pose proof (quality_score_is_model_score chatty (store_with 0) index
                question 5 _ ltac:(vm_compute; reflexivity)) as H.
  cbv zeta in H. destruct H as (_ & _ & _ & Hx).
  specialize (Hx ltac:(vm_compute; reflexivity)).
  vm_compute in Hx. split; vm_compute; reflexivity.
Defined.

(** C6 as stated fails: the score is not clamped to [0,1]. *)
Lemma quality_score_range_counterexample :
  ~ (forall chat store index question k env,
       outcome (run_pipeline chat store index question k) = Ok env ->
       in_unit_interval (quality_score env) = true).
Proof.
  intros H.
  specialize (H chatty (store_with 0) index question 5 _
                ltac:(vm_compute; reflexivity)).
  vm_compute in H. discriminate H.
Qed.

(** C7, on a generator whose statement is the number 5: the connection is
    opened and [phase2_db] raises [TypeError]. *)
Lemma phase2_db_non_string_sql_witness :
  phase2_db numbering (store_with 0) question
  = ([Completed PHASE2_DB_SQL_SYSTEM (Text question);
      Executed "PRAGMA journal_mode=WAL;";
      Executed "PRAGMA synchronous=NORMAL;";
      Executed "PRAGMA temp_store=MEMORY;"],
     Raise TypeError).
Proof.
  apply (phase2_db_non_string_sql numbering (store_with 0) question).
  - vm_compute. reflexivity.
  - intros s H. vm_compute in H. discriminate H.
  - intros p [<-|[<-|[<-|[]]]]; eexists; vm_compute; reflexivity.
Defined.

(** The three returning cases, on a generator that declines, on a statement
    the store rejects and on a query that matches 120 rows. *)
Lemma phase2_db_postcondition_witness :
  (exists r,
     outcome (phase2_db declining (store_with 0) question) = Ok r
     /\ db_ok r = false /\ db_sql r = PNone /\ db_rows_preview r = None
     /\ db_error r = None)
  /\ (exists r,
        outcome (phase2_db misspelling (store_with 0) question) = Ok r
        /\ db_ok r = false /\ db_sql r = PStr "SELEC n FROM transactions"
        /\ db_error r = Some (txt "SQL error: near syntax error"))
  /\ (exists r rows,
        outcome (phase2_db querying (store_with 120) question) = Ok r
        /\ db_ok r = true /\ db_error r = None
        /\ db_rows_preview r = Some rows
        /\ List.length rows = 50%nat).
Proof.
  destruct (phase2_db_postcondition declining (store_with 0) question)
    as (H1 & _ & _).
  destruct (phase2_db_postcondition misspelling (store_with 0) question)
    as (_ & H2 & _).
  destruct (phase2_db_postcondition querying (store_with 120) question)
    as (_ & _ & H3).
  cbv zeta in *.
  split; [|split].
  - eexists. split; [apply H1; vm_compute; reflexivity|].
    repeat split.
  - eexists. split.
    + apply (H2 (txt "near syntax error")); vm_compute; reflexivity.
    + repeat split.
  - destruct (H3 (map row (seq 0 120))) as (H & _);
      [vm_compute; reflexivity..|].
    eexists. eexists. split; [exact H|].
    repeat split.
Defined.

(** C8, on a retrieval result with one source: an empty citations list is
    replaced by the source, a non-empty one is kept. *)
Lemma citation_backfill_witness :
  (exists f,
     outcome (phase4_final declining question decided_rag None
                           (Some retrieved)) = Ok f
     /\ final_citations f = PList [PStr "Bhatla.pdf p.3"])
  /\ (exists f,
        outcome (phase4_final querying question decided_rag None
                              (Some retrieved)) = Ok f
        /\ final_citations f = PList [PStr "own note"]).
Proof.
  split.
  - eexists. split; [vm_compute; reflexivity|].
    refine (proj1 (citation_backfill declining question decided_rag None
                     (Some retrieved) _ _) retrieved _ eq_refl _).
    + vm_compute. reflexivity.
    + vm_compute. reflexivity.
    + discriminate.
  - eexists. split; [vm_compute; reflexivity|].
    etransitivity.
    + refine (proj1 (proj2 (citation_backfill querying question decided_rag
                              None (Some retrieved) _ _)) _).
      * vm_compute. reflexivity.
      * vm_compute. discriminate.
    + vm_compute. reflexivity.
Defined.

(** C9, on an object wrapped in prose without braces. *)
Lemma safe_json_loads_round_trip_witness :
  safe_json_loads (txt "Sure! Here it is: " ++ dq "{'route': 'db'}"
                   ++ txt " Hope it helps.")
  = Some [(txt "route", PStr "db")].
Proof.
  destruct (safe_json_loads_round_trip
              (txt "Sure! Here it is: ") (dq "'route': 'db'")
              (txt " Hope it helps.")) as (H1 & H2).
  - vm_compute. reflexivity.
  - vm_compute. reflexivity.
  - left. vm_compute. reflexivity.
  - cbv zeta in H1, H2.
    change (123%N :: dq "'route': 'db'" ++ [125%N])
      with (dq "{'route': 'db'}") in H1, H2.
    rewrite H1, H2. vm_compute. reflexivity.
Defined.

(** C9 as stated fails: a brace in the prose moves the window, and a
    wrapping that is itself valid JSON is decoded instead of the object. *)
Lemma safe_json_loads_round_trip_counterexample :
  ~ (forall t prefix suffix obj,
       Json.loads t = Some (PDict obj) ->
       safe_json_loads (prefix ++ t ++ suffix) = safe_json_loads t).
Proof.
  intros H.
  specialize (H (dq "{'route': 'db'}") (txt "Use {curly} braces: ") []
                [(txt "route", PStr "db")]
                ltac:(vm_compute; reflexivity)).
  vm_compute in H. discriminate H.
Qed.

(** The same failure without any brace in the prose. *)
Lemma safe_json_loads_array_wrapping :
  safe_json_loads (txt "[" ++ dq "{'route': 'db'}" ++ txt "]") = None
  /\ safe_json_loads (dq "{'route': 'db'}") = Some [(txt "route", PStr "db")].
Proof. split; vm_compute; reflexivity. Qed.

(** C10, on scenario D: the evidence comes from retrieval and the mode is
    still "db". *)
Lemma mode_is_decided_route_witness :
  exists env,
    outcome (run_pipeline declining (store_with 0) index question 5) = Ok env
    /\ mode env = PStr "db"
    /\ retrieval_phase_ran
         (events (run_pipeline declining (store_with 0) index question 5))
       = true.
Proof.
  eexists. split; [vm_compute; reflexivity|].
  destruct (mode_is_decided_route declining (store_with 0) index question 5
              _ ltac:(vm_compute; reflexivity))
    as (d & Hd & _ & Hm & Hfb).
  vm_compute in Hd. injection Hd as <-.
  edestruct Hfb as (Hr & _ & Hmode).
  - reflexivity.
  - vm_compute. reflexivity.
  - reflexivity.
  - split; [exact Hmode|exact Hr].
Defined.

(** * Further properties of the phases *)

Lemma mem_In (c : pystr) (l : list pystr) : PyStr.mem c l = true <-> In c l.
Proof.
  unfold PyStr.mem. rewrite existsb_exists. split.
  - intros (x & Hx & E). apply eqb_eq in E. now subst.
  - intros H. exists c. split; [assumption|now apply eqb_eq].
Qed.

Lemma mem_false (c : pystr) (l : list pystr) :
  PyStr.mem c l = false <-> ~ In c l.
Proof.
  rewrite <- mem_In. destruct (PyStr.mem c l); split; congruence.
Qed.

Lemma In_dedup (seen cites : list pystr) (c : pystr) :
  In c (dedup seen cites) <-> In c cites /\ ~ In c seen.
Proof.
  revert seen. induction cites as [|a cites IH]; intros seen; cbn [dedup In].
  - tauto.
  - destruct (PyStr.mem a seen) eqn:E.
    + apply mem_In in E. rewrite IH. split; [tauto|].
      intros ([<-|H] & Hs); tauto.
    + apply mem_false in E. cbn [In]. rewrite IH. cbn [In].
      split.
      * intros [<-|(H & Hs)]; tauto.
      * intros ([<-|H] & Hs); [tauto|].
        destruct (list_eq_dec N.eq_dec a c); [tauto|]. right. tauto.
Qed.

Lemma NoDup_dedup (seen cites : list pystr) : NoDup (dedup seen cites).
Proof.
  revert seen. induction cites as [|a cites IH]; intros seen; cbn [dedup].
  - constructor.
  - destruct (PyStr.mem a seen); [apply IH|].
    constructor; [|apply IH].
    rewrite In_dedup. cbn [In]. tauto.
Qed.

Lemma dedup_snoc (seen cites : list pystr) (c : pystr) :
  dedup seen (cites ++ [c])
  = dedup seen cites
    ++ (if PyStr.mem c seen || PyStr.mem c (dedup seen cites)
        then [] else [c]).
Proof.
  revert seen. induction cites as [|a cites IH]; intros seen;
    cbn [app dedup].
  - cbn. rewrite orb_false_r. now destruct (PyStr.mem c seen).
  - destruct (PyStr.mem a seen) eqn:E; [apply IH|].
    cbn [app]. rewrite IH. do 2 f_equal.
    unfold PyStr.mem. cbn [existsb].
    destruct (PyStr.eqb c a), (existsb (PyStr.eqb c) seen),
      (existsb (PyStr.eqb c) (dedup (a :: seen) cites)); reflexivity.
Qed.

Lemma format_citations_eq (metas : list Document) :
  format_citations metas = dedup [] (map citation_of metas).
Proof. reflexivity. Qed.

(** X4.  [format_citations] returns every citation exactly once: the result
    has no duplicates, and a string is in it iff it is the citation of one
    of the chunks. *)
Theorem format_citations_unique (metas : list Document) :
  NoDup (format_citations metas)
  /\ forall c,
       In c (format_citations metas)
       <-> exists m, In m metas /\ citation_of m = c.
Proof.
  rewrite format_citations_eq. split; [apply NoDup_dedup|].
  intros c. rewrite In_dedup, in_map_iff. cbn [In]. split.
  - intros ((m & E & Hm) & _). eauto.
  - intros (m & Hm & E). split; [eauto|tauto].
Qed.

(** X5.  [format_citations] keeps the citations in first-seen order: one
    more chunk at the end appends its citation when it is new and changes
    nothing when it has been seen. *)
Theorem format_citations_first_seen (metas : list Document) (m : Document) :
  format_citations (metas ++ [m])
  = if PyStr.mem (citation_of m) (format_citations metas)
    then format_citations metas
    else format_citations metas ++ [citation_of m].
Proof.
  rewrite !format_citations_eq, map_app. cbn [map].
  rewrite dedup_snoc. cbn [PyStr.mem existsb orb].
  destruct (PyStr.mem _ _); [apply app_nil_r|reflexivity].
Qed.

(** X6.  The citation of a chunk is its source name, or "document" when the
    source is missing or empty, followed by the 1-based page number when the
    chunk has a page; so two chunks of one page of one source share their
    citation, and [format_citations] lists it once. *)
Theorem format_citations_same_page (m1 m2 : Document) (metas : list Document) :
  source m1 = source m2 -> page m1 = page m2 ->
  citation_of m1 = citation_of m2
  /\ format_citations (m1 :: m2 :: metas) = format_citations (m1 :: metas).
Proof.
  intros Hs Hp.
  assert (E : citation_of m1 = citation_of m2)
    by (unfold citation_of; now rewrite Hs, Hp).
  split; [exact E|].
  rewrite !format_citations_eq. cbn [map dedup PyStr.mem existsb orb].
  rewrite <- E. unfold PyStr.mem. cbn [existsb].
  now rewrite (proj2 (eqb_eq _ _) eq_refl).
Qed.

Lemma format_citations_same_page_witness :
  format_citations (Examples.index Examples.question 5)
  = [txt "Bhatla.pdf p.3"].
Proof.
  etransitivity.
  - exact (proj2 (format_citations_same_page
                    {| page_content := "Card skimming copies the magnetic stripe.";
                       source := Some (txt "Bhatla.pdf"); page := Some 2 |}
                    {| page_content := "Skimmers are fitted to terminals.";
                       source := Some (txt "Bhatla.pdf"); page := Some 2 |}
                    [] eq_refl eq_refl)).
  - reflexivity.
Defined.

Section Coverage.

Variable chat : system_prompt -> user_content -> Completion.
Variable store : pystr -> store_reply.
Variable index : pystr -> Z -> list Document.

(** X7.  [generate_completion] calls the backend exactly once, never
    raises, and the text it returns is stripped. *)
Theorem generate_completion_stripped system user :
  events (generate_completion chat system user) = [Completed system user]
  /\ exists text,
       outcome (generate_completion chat system user) = Ok text
       /\ strip text = text.
Proof.
  rewrite generate_completion_spec. split; [reflexivity|].
  eexists. split; [reflexivity|].
  unfold completion_text, generate_completion, emit.
  rewrite bind_ok. cbn [outcome snd].
  destruct (choices (chat system user)) as [|msg ?]; [reflexivity|].
  destruct (strip (or_str (content msg))) eqn:Ec;
    [|rewrite <- Ec; apply strip_idem].
  destruct (strip (or_str (reasoning_content msg))) eqn:Er;
    [|rewrite <- Er; apply strip_idem].
  destruct (tool_calls msg) as [|[args|] ?]; try reflexivity.
  destruct (strip args) eqn:Ea; [reflexivity|].
  rewrite <- Ea. apply strip_idem.
Qed.

(** X8.  The extraction priority of [generate_completion]: with no choice
    the text is empty; otherwise a non-blank content wins over everything
    else, a non-blank reasoning_content is used only when the content is
    blank, and the text is empty exactly when the content, the
    reasoning_content and the first tool call's arguments are all blank or
    missing. *)
Theorem generate_completion_priority system user :
  match choices (chat system user) with
  | [] => completion_text chat system user = []
  | msg :: _ =>
      let c := strip (or_str (content msg)) in
      let r := strip (or_str (reasoning_content msg)) in
      (c <> [] -> completion_text chat system user = c)
      /\ (c = [] -> r <> [] -> completion_text chat system user = r)
      /\ (completion_text chat system user = []
          <-> c = [] /\ r = []
              /\ match tool_calls msg with
                 | Some args :: _ => strip args = []
                 | _ => True
                 end)
  end.
Proof.
  clear store index.
  unfold completion_text, generate_completion, emit.
  rewrite bind_ok. cbn [outcome snd].
  destruct (choices (chat system user)) as [|msg ?]; [reflexivity|].
  cbv zeta.
  destruct (strip (or_str (content msg))) eqn:Ec.
  - destruct (strip (or_str (reasoning_content msg))) eqn:Er.
    + split; [congruence|]. split; [congruence|].
      destruct (tool_calls msg) as [|[args|] ?]; cbn; try tauto.
      destruct (strip args); cbn; split; try tauto; intros H;
        try discriminate; destruct H as (_ & _ & H); discriminate.
    + cbn. split; [congruence|]. split; [reflexivity|].
      split; [discriminate|]. intros (_ & H & _). discriminate.
  - cbn. split; [reflexivity|]. split; [congruence|].
    split; [discriminate|]. intros (H & _). discriminate.
Qed.

(** *** Phase 1 *)

(** X9.  [phase1_route] makes one generation call and nothing else; the
    route it returns is always one of the four, a valid route of the model
    is kept as it is, and the raw text is carried along. *)
Theorem phase1_route_invariant question :
  events (phase1_route chat question)
  = [Completed PHASE1_ROUTER_SYSTEM (Text question)]
  /\ forall d,
       outcome (phase1_route chat question) = Ok d ->
       let raw := completion_text chat PHASE1_ROUTER_SYSTEM (Text question) in
       in_strs (route d) ROUTES = true
       /\ route_raw d = raw
       /\ (in_strs (dict_get (parsed raw) "route" (PStr "both")) ROUTES = true ->
           route d = dict_get (parsed raw) "route" (PStr "both")).
Proof.
  split; [apply events_phase1_route|].
  intros d H. pose proof (phase1_route_enum chat question d H) as Henum.
  revert H. rewrite phase1_route_eq. cbv zeta. cbn [outcome snd].
  destruct (PyFloat.float _); [|discriminate].
  intros H.
  match type of H with
  | Ok ?x = Ok _ => assert (Hd : x = d) by congruence
  end.
  clear H. subst d. cbn [route route_raw] in *.
  split; [|split; [reflexivity|]].
  - destruct Henum as [E|[E|[E|E]]]; rewrite E; reflexivity.
  - intros ->. reflexivity.
Qed.

(** *** Phase 2 *)

Lemma run_statement_returns sql rows :
  outcome (run_statement store sql) = Ok rows -> exists s, sql = PStr s.
Proof.
  unfold run_statement. rewrite outcome_bind.
  destruct (outcome (get_connection store)); [|discriminate].
  destruct sql; try discriminate. eauto.
Qed.

(** X10.  Every result [phase2_db] returns is consistent: it carries the
    model's raw text; when ok, the sql is a non-empty string, the preview is
    present with at most 50 rows and there is no error; when not ok, there
    is no preview, and the error is null exactly when the sql is null. *)
Theorem phase2_db_result_invariant question r :
  outcome (phase2_db chat store question) = Ok r ->
  db_raw r = completion_text chat PHASE2_DB_SQL_SYSTEM (Text question)
  /\ (db_ok r = true ->
      exists s rows,
        db_sql r = PStr s /\ s <> []
        /\ db_rows_preview r = Some rows
        /\ (List.length rows <= 50)%nat
        /\ db_error r = None)
  /\ (db_ok r = false ->
      db_rows_preview r = None
      /\ (db_error r = None <-> db_sql r = PNone)).
Proof.
  rewrite phase2_db_eq. cbv zeta.
  destruct (truthy _) eqn:Et; cbn [negb outcome snd].
  - destruct (outcome (run_statement store _)) as [rows|e] eqn:Er.
    + intros [= <-]. cbn [db_raw db_ok db_sql db_rows_preview db_error].
      destruct (run_statement_returns _ _ Er) as [s Hs].
      rewrite Hs in *. split; [reflexivity|]. split; [|discriminate].
      intros _. exists s, (firstn 50 rows).
      split; [reflexivity|]. split; [intros ->; discriminate Et|].
      split; [reflexivity|]. split; [apply firstn_le_length|reflexivity].
    + destruct e; try discriminate. intros [= <-]. cbn [db_raw db_ok db_sql db_rows_preview db_error].
      split; [reflexivity|]. split; [discriminate|]. intros _.
      split; [reflexivity|]. split; [discriminate|].
      intros E. rewrite E in Et. discriminate Et.
  - intros [= <-]. cbn [db_raw db_ok db_sql db_rows_preview db_error]. split; [reflexivity|]. split; [discriminate|].
    intros _. repeat split.
Qed.

Lemma execute_events s :
  events (execute store (PStr s)) = [Executed s].
Proof.
  unfold execute, emit. rewrite bind_ok. cbn [events fst app].
  destruct (store s); reflexivity.
Qed.

(** X11.  [phase2_db] sends the store nothing but the three connection
    pragmas followed by the model's statement, each at most once and in
    that order: the statements it passes are a prefix of that list, whatever
    the store answers. *)
Theorem phase2_db_statements_prefix question :
  let raw := completion_text chat PHASE2_DB_SQL_SYSTEM (Text question) in
  let sql := dict_get (parsed raw) "sql" PNone in
  exists n,
    statements (events (phase2_db chat store question))
    = firstn n (PRAGMAS ++ match sql with PStr s => [s] | _ => [] end).
Proof.
  cbv zeta. rewrite phase2_db_eq. cbv zeta.
  destruct (truthy _); cbn [negb events fst statements];
    [|exists 0%nat; reflexivity].
  unfold run_statement, get_connection.
  rewrite !events_bind, !outcome_bind, !execute_events.
  destruct (outcome (execute store (PStr "PRAGMA journal_mode=WAL;")));
    [|exists 1%nat; reflexivity].
  destruct (outcome (execute store (PStr "PRAGMA synchronous=NORMAL;")));
    [|exists 2%nat; reflexivity].
  destruct (outcome (execute store (PStr "PRAGMA temp_store=MEMORY;")));
    [|exists 3%nat; reflexivity].
  cbn [outcome ret snd events fst app statements].
  destruct (dict_get _ "sql" PNone);
    try (exists 3%nat; reflexivity).
  rewrite execute_events. exists 4%nat. reflexivity.
Qed.

(** *** Phase 3 *)

Lemma join_length (sep : pystr) (parts : list pystr) (b : nat) :
  Forall (fun p => (List.length p <= b)%nat) parts ->
  (List.length (PyStr.join sep parts)
   <= (b + List.length sep) * List.length parts)%nat.
Proof.
  induction 1 as [|p rest Hp _ IH]; [cbn; lia|].
  cbn [PyStr.join]. destruct rest as [|q rest].
  - cbn [List.length]. lia.
  - rewrite !length_app. cbn [List.length] in *. lia.
Qed.

(** X12.  With no hit, [phase3_rag] returns ok=false with an empty context,
    no sources and no answer, and does not call the backend: the search is
    its only call. *)
Theorem phase3_rag_no_hits question k :
  index question k = [] ->
  events (phase3_rag chat index question k) = [Searched question k]
  /\ outcome (phase3_rag chat index question k)
     = Ok {| rag_ok := false; rag_context := []; rag_sources := [];
             rag_answer := PNone;
             rag_notes := PStr "No relevant context retrieved";
             rag_raw := None |}.
Proof.
  intros H. unfold phase3_rag. rewrite retrieve_context_spec, bind_ok, H.
  split; reflexivity.
Qed.

(** X13.  With at least one hit, [phase3_rag] searches once, calls the
    backend once and returns ok=true whatever the backend answers.  The
    context it returns is the hits' texts, each cut to 1200 characters,
    joined by the separator; the backend is asked the question with that
    context; the sources are the citations of the hits.  When the answer
    does not parse, the answer is null and the notes are empty, and the
    sources and the context are returned all the same. *)
Theorem phase3_rag_hits question k :
  index question k <> [] ->
  let context :=
    PyStr.join (nl ++ nl ++ txt "---" ++ nl ++ nl)
               (map (fun d => firstn 1200 (page_content d))
                    (index question k)) in
  let user :=
    Text (txt "Question:" ++ nl ++ question ++ nl ++ nl
          ++ txt "Context:" ++ nl ++ context) in
  let raw := completion_text chat PHASE3_RAG_ANSWER_SYSTEM user in
  exists r,
    events (phase3_rag chat index question k)
    = [Searched question k; Completed PHASE3_RAG_ANSWER_SYSTEM user]
    /\ outcome (phase3_rag chat index question k) = Ok r
    /\ rag_ok r = true
    /\ rag_context r = context
    /\ rag_sources r = format_citations (index question k)
    /\ rag_raw r = Some raw
    /\ (safe_json_loads raw = None ->
        rag_answer r = PNone /\ rag_notes r = PStr "").
Proof.
  intros H. cbv zeta. unfold phase3_rag.
  rewrite retrieve_context_spec, bind_ok.
  destruct (index question k) as [|h hits]; [congruence|].
  rewrite generate_completion_spec, bind_ok.
  eexists. split; [reflexivity|]. split; [reflexivity|].
  cbn [rag_ok rag_context rag_sources rag_raw rag_answer rag_notes].
  repeat split; try reflexivity; rewrite H0; reflexivity.
Qed.

(** X14.  The context [phase3_rag] returns is bounded: each chunk
    contributes at most 1200 characters and the separator has 7, so the
    context has at most 1207 characters per hit; and its sources have no
    duplicates. *)
Theorem phase3_rag_bounded question k r :
  outcome (phase3_rag chat index question k) = Ok r ->
  (List.length (rag_context r) <= 1207 * List.length (index question k))%nat
  /\ NoDup (rag_sources r).
Proof.
  unfold phase3_rag. rewrite retrieve_context_spec, bind_ok.
  destruct (index question k) as [|h hits] eqn:E.
  - intros [= <-]. cbn. split; [lia|constructor].
  - rewrite generate_completion_spec, bind_ok.
    cbn [outcome ret snd]. intros [= <-].
    cbn [rag_context rag_sources]. split.
    + pose proof (join_length (nl ++ nl ++ txt "---" ++ nl ++ nl)
                    (map (fun d => firstn 1200 (page_content d)) (h :: hits))
                    1200) as J.
      rewrite length_map in J.
      change (List.length (nl ++ nl ++ txt "---" ++ nl ++ nl)) with 7%nat in J.
      apply J. apply Forall_map, Forall_forall. intros d _.
      apply firstn_le_length.
    + apply format_citations_unique.
Qed.

(** *** Phase 4 *)

(** X15.  The answer [phase4_final] returns is never empty or null; and
    when the composer's text does not parse, the result is the fixed
    apology with score 0.0 and, as citations, the retrieval sources when
    there is a retrieval result (none otherwise). *)
Theorem phase4_final_fallback question d db_out rag_out f :
  outcome (phase4_final chat question d db_out rag_out) = Ok f ->
  let raw := completion_text chat PHASE4_FINAL_SYSTEM
               (JsonDumps (build_evidence question d db_out rag_out)) in
  truthy (final_answer f) = true
  /\ (safe_json_loads raw = None ->
      final_answer f = PStr APOLOGY
      /\ final_quality_score f = Fin 0
      /\ final_citations f
         = PList (map PStr match rag_out with
                           | Some r => rag_sources r
                           | None => []
                           end)).
Proof.
  rewrite phase4_final_eq. cbv zeta. cbn [outcome snd].
  destruct (PyFloat.float _) as [score|e] eqn:Ef; [|discriminate].
  intros [= <-]. cbn [final_answer final_quality_score final_citations].
  split.
  - unfold py_or. destruct (truthy (dict_get1 _ "answer")) eqn:E;
      [exact E|reflexivity].
  - intros Hnone. unfold parsed in *. rewrite Hnone in *.
    cbn in Ef. injection Ef as <-.
    repeat split.
    destruct rag_out as [r|]; [|reflexivity].
    cbn. destruct (rag_sources r); reflexivity.
Qed.

(** *** The orchestrator *)

Lemma generation_calls_app (l1 l2 : list event) :
  generation_calls (l1 ++ l2) = (generation_calls l1 + generation_calls l2)%nat.
Proof. unfold generation_calls. now rewrite filter_app, length_app. Qed.

Lemma searches_app (l1 l2 : list event) :
  searches (l1 ++ l2) = (searches l1 + searches l2)%nat.
Proof. unfold searches. now rewrite filter_app, length_app. Qed.

Lemma counts_executed (rest : list event) :
  Forall (fun e => exists s, e = Executed s) rest ->
  generation_calls rest = 0%nat /\ searches rest = 0%nat.
Proof.
  induction 1 as [|e rest [s ->] _ IH]; [split; reflexivity|exact IH].
Qed.

Lemma counts_phase2_db question :
  generation_calls (events (phase2_db chat store question)) = 1%nat
  /\ searches (events (phase2_db chat store question)) = 0%nat.
Proof.
  destruct (events_phase2_db chat store question) as (rest & -> & Hrest).
  destruct (counts_executed rest Hrest) as (G & S).
  unfold generation_calls, searches in *. cbn [filter List.length].
  now rewrite G, S.
Qed.

Lemma events_phase3_rag_cases question k :
  events (phase3_rag chat index question k) = [Searched question k]
  \/ exists user,
       events (phase3_rag chat index question k)
       = [Searched question k; Completed PHASE3_RAG_ANSWER_SYSTEM user].
Proof.
  unfold phase3_rag. rewrite retrieve_context_spec, bind_ok.
  destruct (index question k); [now left|].
  rewrite generate_completion_spec, bind_ok. right. eexists. reflexivity.
Qed.

Lemma final_evidence_eq question d db_out rag_out f :
  outcome (phase4_final chat question d db_out rag_out) = Ok f ->
  final_evidence f = build_evidence question d db_out rag_out
  /\ truthy (final_answer f) = true.
Proof.
  rewrite phase4_final_eq. cbv zeta. cbn [outcome snd].
  destruct (PyFloat.float _); [|discriminate].
  intros [= <-]. cbn [final_evidence final_answer]. split; [reflexivity|].
  unfold py_or. destruct (truthy (dict_get1 _ "answer")) eqn:E;
    [exact E|reflexivity].
Qed.

Lemma run_pipeline_eta question k env :
  outcome (run_pipeline chat store index question k) = Ok env ->
  run_pipeline chat store index question k
  = (events (run_pipeline chat store index question k), Ok env).
Proof.
  intros H. rewrite (M_eta (run_pipeline chat store index question k)) at 1.
  now rewrite H.
Qed.

(** X16.  A run that returns makes between two and four generation calls
    and searches the index at most once; its first call is the router's and
    its last call is the composer's, on the evidence reported in the debug
    trace. *)
Theorem run_pipeline_call_budget question k env :
  outcome (run_pipeline chat store index question k) = Ok env ->
  let log := events (run_pipeline chat store index question k) in
  (2 <= generation_calls log <= 4)%nat
  /\ (searches log <= 1)%nat
  /\ hd_error log = Some (Completed PHASE1_ROUTER_SYSTEM (Text question))
  /\ last log (Searched [] 0)
     = Completed PHASE4_FINAL_SYSTEM (JsonDumps (debug_evidence (debug env))).
Proof.
  intros H log. apply run_pipeline_eta in H. fold log in H.
  destruct (run_pipeline_inv _ _ _ _ _ _ _ H)
    as (d & f & _ & Hf & Eenv & _ & _ & Hlog).
  destruct (final_evidence_eq _ _ _ _ _ Hf) as (Hev & _).
  assert (Hde : debug_evidence (debug env) = final_evidence f)
    by (rewrite Eenv; reflexivity).
  rewrite Hde, Hev. rewrite events_phase4_final in Hlog.
  destruct (counts_phase2_db question) as (G2 & S2).
  assert (G3 : (generation_calls (events (phase3_rag chat index question k))
                <= 1)%nat
               /\ searches (events (phase3_rag chat index question k))
                  = 1%nat).
  { destruct (events_phase3_rag_cases question k) as [->|[u ->]];
      split; cbn; lia. }
  destruct G3 as (G3 & S3).
  rewrite Hlog.
  change (Completed PHASE1_ROUTER_SYSTEM (Text question) :: ?x)
    with ([Completed PHASE1_ROUTER_SYSTEM (Text question)] ++ x).
  rewrite !generation_calls_app, !searches_app.
  set (log2 := match debug_db_out (debug env) with
               | Some _ => events (phase2_db chat store question)
               | None => []
               end).
  set (log3 := match debug_rag_out (debug env) with
               | Some _ => events (phase3_rag chat index question k)
               | None => []
               end).
  assert (A2 : (generation_calls log2 <= 1)%nat /\ searches log2 = 0%nat).
  { unfold log2. destruct (debug_db_out (debug env));
      [rewrite G2, S2; split; lia|split; cbn; lia]. }
  assert (A3 : (generation_calls log3 <= 1)%nat /\ (searches log3 <= 1)%nat).
  { unfold log3. destruct (debug_rag_out (debug env));
      [rewrite S3; split; [exact G3|lia]|split; cbn; lia]. }
  change (generation_calls [Completed PHASE1_ROUTER_SYSTEM (Text question)])
    with 1%nat.
  change (searches [Completed PHASE1_ROUTER_SYSTEM (Text question)])
    with 0%nat.
  match goal with
  | |- context [generation_calls [Completed PHASE4_FINAL_SYSTEM ?u]] =>
      change (generation_calls [Completed PHASE4_FINAL_SYSTEM u]) with 1%nat;
      change (searches [Completed PHASE4_FINAL_SYSTEM u]) with 0%nat
  end.
  split; [lia|]. split; [lia|]. split; [reflexivity|].
  rewrite !app_assoc. apply last_last.
Qed.

(** X17.  In a run that returns, the store is touched only by the query
    phase: with mode rag or general no statement is passed to the store, and
    with mode db or both the statements are those of the one call of
    [phase2_db]. *)
Theorem run_pipeline_store_access question k env :
  outcome (run_pipeline chat store index question k) = Ok env ->
  statements (events (run_pipeline chat store index question k))
  = if in_strs (mode env) [txt "db"; txt "both"]
    then statements (events (phase2_db chat store question))
    else [].
Proof.
  intros H. apply run_pipeline_eta in H.
  destruct (run_pipeline_inv _ _ _ _ _ _ _ H)
    as (d & f & _ & _ & Eenv & Hdb & _ & Hlog).
  assert (Hm : mode env = route d) by (rewrite Eenv; reflexivity).
  rewrite Hm, Hlog, events_phase4_final.
  assert (S3 : statements (events (phase3_rag chat index question k)) = []).
  { destruct (events_phase3_rag_cases question k) as [->|[u ->]];
      reflexivity. }
  cbn [statements]. rewrite !statements_app. cbn [statements].
  destruct (debug_db_out (debug env)).
  - destruct Hdb as (-> & _).
    destruct (debug_rag_out (debug env)); rewrite ?S3, ?app_nil_r;
      reflexivity.
  - rewrite Hdb.
    destruct (debug_rag_out (debug env)); rewrite ?S3; reflexivity.
Qed.

(** X18.  The debug trace of a run that returns is consistent with what
    happened: the evidence it reports is the evidence built from the
    reported route decision and branch results, the reported raw text is the
    composer's text for that evidence, a reported branch result is the
    result of that phase, and the answer is never empty or null. *)
Theorem run_pipeline_debug_consistent question k env :
  outcome (run_pipeline chat store index question k) = Ok env ->
  let dbg := debug env in
  debug_evidence dbg
  = build_evidence question (debug_route dbg) (debug_db_out dbg)
                   (debug_rag_out dbg)
  /\ debug_final_raw dbg
     = completion_text chat PHASE4_FINAL_SYSTEM
         (JsonDumps (debug_evidence dbg))
  /\ (forall r, debug_db_out dbg = Some r ->
                outcome (phase2_db chat store question) = Ok r)
  /\ (forall r, debug_rag_out dbg = Some r ->
                outcome (phase3_rag chat index question k) = Ok r)
  /\ truthy (answer env) = true.
Proof.
  intros H dbg. apply run_pipeline_eta in H.
  destruct (run_pipeline_inv _ _ _ _ _ _ _ H)
    as (d & f & _ & Hf & Eenv & Hdb & Hrag & _).
  destruct (final_evidence_eq _ _ _ _ _ Hf) as (Hev & Ht).
  destruct (phase4_final_ok _ _ _ _ _ _ Hf) as (Hraw & _).
  assert (E1 : debug_evidence dbg = final_evidence f)
    by (unfold dbg; rewrite Eenv; reflexivity).
  assert (E2 : debug_route dbg = d)
    by (unfold dbg; rewrite Eenv; reflexivity).
  assert (E3 : debug_final_raw dbg = final_raw f)
    by (unfold dbg; rewrite Eenv; reflexivity).
  assert (E4 : answer env = final_answer f) by (rewrite Eenv; reflexivity).
  fold dbg in Hev, Hraw, Hdb, Hrag.
  rewrite E1, E2, E3, E4, Hev.
  split; [reflexivity|]. split; [exact Hraw|].
  split; [|split; [|exact Ht]].
  - intros r Hr. rewrite Hr in Hdb. tauto.
  - intros r Hr. rewrite Hr in Hrag. tauto.
Qed.

End Coverage.

(** *** The same properties on the concrete collaborators *)

Lemma generate_completion_priority_witness :
  completion_text
    (fun _ _ =>
       {| choices := [ {| content := Some (txt "  ");
                          reasoning_content := Some (txt " thinking ");
                          tool_calls := [Some (txt "args")] |} ] |})
    PHASE1_ROUTER_SYSTEM (Text question)
  = txt "thinking".
Proof.
  pose proof (generate_completion_priority
                (fun _ _ =>
                   {| choices := [ {| content := Some (txt "  ");
                                      reasoning_content := Some (txt " thinking ");
                                      tool_calls := [Some (txt "args")] |} ] |})
                PHASE1_ROUTER_SYSTEM (Text question)) as H.
  cbn [choices] in H. cbv zeta in H. destruct H as (_ & H & _).
  rewrite H; [reflexivity|reflexivity|discriminate].
Defined.

Lemma phase1_route_invariant_witness :
  exists d,
    outcome (phase1_route declining question) = Ok d
    /\ in_strs (route d) ROUTES = true
    /\ route d = PStr "db".
Proof.
  eexists. split; [vm_compute; reflexivity|].
  destruct (proj2 (phase1_route_invariant declining question) _
              ltac:(vm_compute; reflexivity)) as (H1 & _ & H3).
  split; [exact H1|].
  rewrite H3; vm_compute; reflexivity.
Defined.

Lemma phase2_db_result_invariant_witness :
  exists r,
    outcome (phase2_db querying (store_with 120) question) = Ok r
    /\ exists s rows,
         db_sql r = PStr s /\ s <> []
         /\ db_rows_preview r = Some rows
         /\ (List.length rows <= 50)%nat
         /\ db_error r = None.
Proof.
  eexists. split; [vm_compute; reflexivity|].
  apply (proj1 (proj2 (phase2_db_result_invariant querying (store_with 120)
                         question _ ltac:(vm_compute; reflexivity)))).
  reflexivity.
Defined.

Lemma phase3_rag_no_hits_witness :
  events (phase3_rag declining empty_index question 5)
  = [Searched question 5].
Proof.
  apply (proj1 (phase3_rag_no_hits declining empty_index question 5 eq_refl)).
Defined.

Lemma phase3_rag_hits_witness :
  exists r,
    outcome (phase3_rag (backend "" "" "no JSON here" "") index question 5)
    = Ok r
    /\ rag_ok r = true
    /\ rag_context r
       = txt "Card skimming copies the magnetic stripe."
         ++ nl ++ nl ++ txt "---" ++ nl ++ nl
         ++ txt "Skimmers are fitted to terminals."
    /\ rag_sources r = [txt "Bhatla.pdf p.3"]
    /\ rag_answer r = PNone.
Proof.
  destruct (phase3_rag_hits (backend "" "" "no JSON here" "") index
              question 5 ltac:(discriminate))
    as (r & _ & Hr & Hok & Hc & Hs & _ & Hnone).
  exists r. split; [exact Hr|]. split; [exact Hok|].
  split; [rewrite Hc; vm_compute; reflexivity|].
  split; [rewrite Hs; reflexivity|].
  apply Hnone. vm_compute. reflexivity.
Defined.

Lemma phase3_rag_bounded_witness :
  exists r,
    outcome (phase3_rag declining index question 5) = Ok r
    /\ (List.length (rag_context r) <= 1207 * 2)%nat.
Proof.
  eexists. split; [vm_compute; reflexivity|].
  apply (proj1 (phase3_rag_bounded declining index question 5 _
                  ltac:(vm_compute; reflexivity))).
Defined.

Lemma phase4_final_fallback_witness :
  exists f,
    outcome (phase4_final (backend "" "" "" "I cannot say.") question
                          decided_rag None (Some retrieved)) = Ok f
    /\ final_answer f = PStr APOLOGY
    /\ final_quality_score f = Fin 0
    /\ final_citations f = PList [PStr "Bhatla.pdf p.3"].
Proof.
  eexists. split; [vm_compute; reflexivity|].
  apply (proj2 (phase4_final_fallback (backend "" "" "" "I cannot say.")
                  question decided_rag None (Some retrieved) _
                  ltac:(vm_compute; reflexivity))).
  vm_compute. reflexivity.
Defined.

Lemma run_pipeline_call_budget_witness :
  generation_calls
    (events (run_pipeline declining (store_with 0) index question 5))
  = 4%nat
  /\ (searches (events (run_pipeline declining (store_with 0) index
                                     question 5)) <= 1)%nat.
Proof.
  destruct (run_pipeline_call_budget declining (store_with 0) index
              question 5 _ ltac:(vm_compute; reflexivity))
    as (_ & Hs & _).
  split; [vm_compute; reflexivity|exact Hs].
Defined.

Lemma run_pipeline_store_access_witness :
  statements (events (run_pipeline chatty (store_with 0) index question 5))
  = [].
Proof.
  etransitivity.
  - apply (run_pipeline_store_access chatty (store_with 0) index question 5).
    vm_compute. reflexivity.
  - vm_compute. reflexivity.
Defined.

Lemma run_pipeline_debug_consistent_witness :
  exists env,
    outcome (run_pipeline declining (store_with 0) index question 5) = Ok env
    /\ truthy (answer env) = true
    /\ debug_evidence (debug env)
       = build_evidence question (debug_route (debug env))
                        (debug_db_out (debug env))
                        (debug_rag_out (debug env)).
Proof.
  eexists. split; [vm_compute; reflexivity|].
  destruct (run_pipeline_debug_consistent declining (store_with 0) index
              question 5 _ ltac:(vm_compute; reflexivity))
    as (He & _ & _ & _ & Ht).
  split; [exact Ht|exact He].
Defined.

(** * The bootstrap *)

Module BootstrapProperties.

Import Bootstrap.

Section Db.

Variable row : Type.
Variable chunk : Type.
Variable to_sql : chunk -> list row.

Lemma table_create_index name (db : Database row) :
  table (create_index name db) = table db.
Proof. unfold create_index. now destruct (PyStr.mem name (indexes db)). Qed.

Lemma indexes_create_index name (db : Database row) x :
  In x (indexes (create_index name db)) <-> x = name \/ In x (indexes db).
Proof.
  unfold create_index. destruct (PyStr.mem name (indexes db)) eqn:E; cbn.
  - apply mem_In in E. split; [tauto|]. intros [->|H]; assumption.
  - rewrite in_app_iff. cbn. intuition.
Qed.

Lemma create_index_present name (db : Database row) :
  In name (indexes db) -> create_index name db = db.
Proof.
  intros H. unfold create_index. apply mem_In in H. now rewrite H.
Qed.

Lemma table_create_indexes (db : Database row) :
  table (create_indexes db) = table db.
Proof.
  unfold create_indexes. cbn [fold_left INDEX_NAMES].
  now rewrite !table_create_index.
Qed.

Lemma indexes_create_indexes (db : Database row) x :
  In x (indexes (create_indexes db)) <-> In x INDEX_NAMES \/ In x (indexes db).
Proof.
  unfold create_indexes, INDEX_NAMES. cbn [fold_left In].
  rewrite !indexes_create_index. intuition.
Qed.

Lemma create_indexes_idem (db : Database row) :
  create_indexes (create_indexes db) = create_indexes db.
Proof.
  unfold create_indexes at 1. cbn [fold_left INDEX_NAMES].
  rewrite (create_index_present "idx_transactions_time")
    by (apply indexes_create_indexes; left; cbn; auto).
  rewrite (create_index_present "idx_transactions_merchant")
    by (apply indexes_create_indexes; left; cbn; auto).
  rewrite (create_index_present "idx_transactions_category")
    by (apply indexes_create_indexes; left; cbn; auto).
  rewrite (create_index_present "idx_transactions_is_fraud")
    by (apply indexes_create_indexes; left; cbn; auto 6).
  reflexivity.
Qed.

Lemma NoDup_create_index name (db : Database row) :
  NoDup (indexes db) -> NoDup (indexes (create_index name db)).
Proof.
  intros H. unfold create_index.
  destruct (PyStr.mem name (indexes db)) eqn:E; [exact H|].
  apply mem_false in E. cbn.
  apply NoDup_app; [exact H|repeat constructor; auto|].
  intros x Hx [<-|[]]. contradiction.
Qed.

Lemma load_rows (reader : list chunk) (db : Database row) (r : list row) :
  table db = Some r ->
  load_csv_to_sqlite to_sql (Some reader) db
  = ({| table := Some (r ++ flat_map to_sql reader); indexes := indexes db |},
     Done tt).
Proof.
  cbn [load_csv_to_sqlite]. intros H. f_equal. revert db r H.
  induction reader as [|c reader IH]; intros db r H.
  - cbn. rewrite app_nil_r. destruct db. cbn in *. now subst.
  - cbn [fold_left flat_map].
    rewrite (IH _ (r ++ to_sql c)).
    + cbn. now rewrite app_assoc.
    + cbn. unfold rows. now rewrite H.
Qed.

(** [create_indexes] leaves the table alone, and what it does to the list
    of indexes does not depend on the table. *)
Lemma indexes_create_index_table name (db : Database row)
  (t : option (list row)) :
  indexes (create_index name db)
  = indexes (create_index name {| table := t; indexes := indexes db |}).
Proof.
  unfold create_index. cbn [indexes].
  now destruct (PyStr.mem name (indexes db)).
Qed.

Lemma fold_create_index_shape (names : list pystr) (db : Database row) :
  fold_left (fun db name => create_index name db) names db
  = {| table := table db;
       indexes := indexes (fold_left (fun db name => create_index name db)
                             names
                             {| table := @None (list row);
                                indexes := indexes db |}) |}.
Proof.
  revert db. induction names as [|n names IH]; intros db.
  - now destruct db.
  - cbn [fold_left]. rewrite (IH (create_index n db)).
    rewrite (IH (create_index n {| table := None; indexes := indexes db |})).
    cbn [indexes]. rewrite table_create_index.
    now rewrite (indexes_create_index_table n db None).
Qed.

Lemma create_indexes_shape (db : Database row) :
  create_indexes db
  = {| table := table db;
       indexes := indexes (create_indexes
                             {| table := @None (list row);
                                indexes := indexes db |}) |}.
Proof. apply fold_create_index_shape. Qed.

Lemma create_indexes_twice (t : option (list row)) (i : list pystr) :
  indexes (create_indexes
             {| table := @None (list row);
                indexes := indexes (create_indexes
                                      {| table := t; indexes := i |}) |})
  = indexes (create_indexes {| table := t; indexes := i |}).
Proof.
  pose proof (create_indexes_idem {| table := t; indexes := i |}) as H.
  rewrite (create_indexes_shape (create_indexes _)) in H.
  apply (f_equal indexes) in H. exact H.
Qed.

Lemma table_init_schema (db : Database row) :
  table (init_schema db) = Some (rows db)
  /\ indexes (init_schema db) = indexes db.
Proof.
  unfold init_schema, rows. destruct (table db) eqn:E; split; auto.
Qed.

(** What [bootstrap_db] does, by the rows that are kept. *)
Lemma bootstrap_db_eq csv force_reload (db : Database row) :
  bootstrap_db to_sql csv force_reload db
  = let kept := if force_reload then [] else rows db in
    let created := indexes (create_indexes
                              {| table := @None (list row);
                                 indexes := indexes db |}) in
    match kept, csv with
    | [], Some reader =>
        ({| table := Some (flat_map to_sql reader); indexes := created |},
         Done DEFAULT_DB_PATH)
    | [], None =>
        ({| table := Some []; indexes := indexes db |},
         FileNotFoundError DEFAULT_CSV_PATH)
    | _ :: _, _ =>
        ({| table := Some kept; indexes := created |}, Done DEFAULT_DB_PATH)
    end.
Proof.
  unfold bootstrap_db. cbv zeta.
  destruct (table_init_schema db) as (Ht & Hi).
  assert (Hr : rows (init_schema db) = rows db)
    by (unfold rows at 1; now rewrite Ht).
  destruct force_reload.
  - cbn [rows table List.length Nat.eqb]. rewrite Hi.
    destruct csv as [reader|]; [|reflexivity].
    rewrite (load_rows reader {| table := Some []; indexes := indexes db |}
               [] eq_refl).
    cbn [app indexes].
    now rewrite create_indexes_shape.
  - rewrite Hr. destruct (rows db) as [|x r] eqn:E;
      cbn [List.length Nat.eqb].
    + destruct csv as [reader|].
      * assert (Ht' : table (init_schema db) = Some []) by congruence.
        rewrite (load_rows reader (init_schema db) [] Ht').
        cbn [app]. rewrite create_indexes_shape. cbn [table indexes].
        now rewrite Hi.
      * cbn [load_csv_to_sqlite]. f_equal.
        destruct (init_schema db) as [t i]. cbn [table indexes] in Ht, Hi.
        congruence.
    + rewrite create_indexes_shape. now rewrite Ht, Hi.
Qed.

(** X19.  On a database that already holds rows, [bootstrap_db] without
    force_reload keeps the rows as they are and does not need the CSV file:
    it succeeds even when the file is missing. *)
Theorem bootstrap_db_keeps_rows csv (db : Database row) (r : list row) :
  table db = Some r -> r <> [] ->
  table (fst (bootstrap_db to_sql csv false db)) = Some r
  /\ snd (bootstrap_db to_sql csv false db) = Done DEFAULT_DB_PATH.
Proof.
  intros H Hr. rewrite bootstrap_db_eq. cbv zeta.
  unfold rows. rewrite H. destruct r; [congruence|]. split; reflexivity.
Qed.

(** X20.  With force_reload and an existing CSV file, the table holds
    exactly the rows of the file's chunks, in order, whatever it held
    before: earlier rows are not kept and not duplicated. *)
Theorem bootstrap_db_force_reload reader (db : Database row) :
  table (fst (bootstrap_db to_sql (Some reader) true db))
  = Some (flat_map to_sql reader)
  /\ snd (bootstrap_db to_sql (Some reader) true db) = Done DEFAULT_DB_PATH.
Proof. rewrite bootstrap_db_eq. split; reflexivity. Qed.

(** X21.  A missing CSV file makes [bootstrap_db] raise FileNotFoundError
    exactly when the table is empty after the optional clearing, that is
    with force_reload or with no rows; the table is then left empty, so
    with force_reload the earlier rows are lost, and the indexes are not
    created. *)
Theorem bootstrap_db_missing_csv force_reload (db : Database row) :
  (force_reload = true \/ rows db = [] ->
   bootstrap_db to_sql None force_reload db
   = ({| table := Some []; indexes := indexes db |},
      FileNotFoundError DEFAULT_CSV_PATH))
  /\ (force_reload = false -> rows db <> [] ->
      snd (bootstrap_db to_sql None force_reload db) = Done DEFAULT_DB_PATH).
Proof.
  rewrite bootstrap_db_eq. cbv zeta. split.
  - intros [->| ->]; [reflexivity|]. now destruct force_reload.
  - intros -> H. destruct (rows db); [congruence|reflexivity].
Qed.

(** X22.  [bootstrap_db] is idempotent: a second call with the same CSV
    file and the same flag leaves the database as the first call left it
    and has the same outcome. *)
Theorem bootstrap_db_idempotent csv force_reload (db : Database row) :
  bootstrap_db to_sql csv force_reload
               (fst (bootstrap_db to_sql csv force_reload db))
  = bootstrap_db to_sql csv force_reload db.
Proof.
  rewrite (bootstrap_db_eq csv force_reload db). cbv zeta.
  destruct force_reload.
  - destruct csv as [reader|]; cbn [fst]; rewrite bootstrap_db_eq;
      cbv zeta; cbn [indexes]; [|reflexivity].
    now rewrite (create_indexes_twice None).
  - destruct (rows db) as [|x r] eqn:E.
    + destruct csv as [reader|]; cbn [fst]; rewrite bootstrap_db_eq;
        cbv zeta; cbn [rows table indexes]; [|reflexivity].
      rewrite (create_indexes_twice None).
      now destruct (flat_map to_sql reader).
    + cbn [fst]. rewrite bootstrap_db_eq. cbv zeta.
      cbn [rows table indexes]. now rewrite (create_indexes_twice None).
Qed.

(** X23.  After a successful [bootstrap_db] the four indexes exist, every
    index that existed before is still there, and no index is listed
    twice. *)
Theorem bootstrap_db_indexes csv force_reload (db : Database row) :
  snd (bootstrap_db to_sql csv force_reload db) = Done DEFAULT_DB_PATH ->
  NoDup (indexes db) ->
  let db' := fst (bootstrap_db to_sql csv force_reload db) in
  (forall name, In name INDEX_NAMES -> In name (indexes db'))
  /\ (forall name, In name (indexes db) -> In name (indexes db'))
  /\ NoDup (indexes db').
Proof.
  rewrite bootstrap_db_eq. cbv zeta. intros Hdone Hnd.
  set (d := {| table := @None (list row); indexes := indexes db |}).
  assert (Hi : indexes
                 (fst match (if force_reload then [] else rows db), csv with
                      | [], Some reader =>
                          ({| table := Some (flat_map to_sql reader);
                              indexes := indexes (create_indexes d) |},
                           Done DEFAULT_DB_PATH)
                      | [], None =>
                          ({| table := Some []; indexes := indexes db |},
                           FileNotFoundError DEFAULT_CSV_PATH)
                      | _ :: _, _ =>
                          ({| table := Some (if force_reload then []
                                             else rows db);
                              indexes := indexes (create_indexes d) |},
                           Done DEFAULT_DB_PATH)
                      end)
               = indexes (create_indexes d)).
  { fold d in Hdone.
    destruct (if force_reload then [] else rows db);
      [destruct csv; [reflexivity|discriminate Hdone]|reflexivity]. }
  fold d. rewrite Hi.
  split; [|split].
  - intros name H. apply indexes_create_indexes. now left.
  - intros name H. apply indexes_create_indexes. now right.
  - unfold create_indexes, INDEX_NAMES. cbn [fold_left].
    repeat apply NoDup_create_index. exact Hnd.
Qed.

End Db.

Section Rag.

Variable Index : Type.
Variable split_documents : list Document -> list Document.
Variable from_documents : list Document -> Index.

(** X24.  When a PDF of the list is missing, [bootstrap_rag] raises
    FileNotFoundError for the first missing one and touches nothing, also
    when a saved index is present and force_rebuild is off. *)
Theorem bootstrap_rag_missing_pdf pdf_paths text_paths force_rebuild
  (files : Files Index) (p : pystr) :
  In p pdf_paths -> file_exists files p = false ->
  exists q before rest,
    bootstrap_rag split_documents from_documents pdf_paths text_paths
                  force_rebuild files
    = (files, FileNotFoundError q)
    /\ pdf_paths = before ++ q :: rest
    /\ file_exists files q = false
    /\ forall x, In x before -> file_exists files x = true.
Proof.
  intros Hin Hmiss. unfold bootstrap_rag.
  destruct (List.find _ pdf_paths) as [q|] eqn:E.
  - exists q.
    assert (Hsplit : exists before rest,
              pdf_paths = before ++ q :: rest
              /\ forall x, In x before -> file_exists files x = true).
    { clear Hin. revert E. induction pdf_paths as [|a l IH]; [discriminate|].
      cbn [List.find]. destruct (file_exists files a) eqn:Ea; cbn [negb].
      - intros E. destruct (IH E) as (b & r & -> & Hb).
        exists (a :: b), r. split; [reflexivity|].
        intros x [<-|Hx]; auto.
      - intros [= ->]. exists [], l. split; [reflexivity|]. intros x []. }
    destruct Hsplit as (before & rest & Hs & Hb).
    exists before, rest. split; [reflexivity|]. split; [exact Hs|].
    split; [|exact Hb].
    apply find_some in E. destruct E as (_ & E).
    now destruct (file_exists files q).
  - exfalso. apply (find_none _ _ E) in Hin. rewrite Hmiss in Hin.
    discriminate.
Qed.

Lemma find_missing_none pdf_paths (files : Files Index) :
  (forall p, In p pdf_paths -> file_exists files p = true) ->
  List.find (fun p => negb (file_exists files p)) pdf_paths = None.
Proof.
  intros H. induction pdf_paths as [|a l IH]; [reflexivity|].
  cbn [List.find]. rewrite (H a) by (now left). cbn [negb].
  apply IH. intros p Hp. apply H. now right.
Qed.

(** X25.  With all PDFs present, [bootstrap_rag] loads the saved index
    unless force_rebuild is set, without reading a document or writing a
    file; otherwise it builds the index from the split PDF and text
    documents and saves it. *)
Theorem bootstrap_rag_load_or_build pdf_paths text_paths force_rebuild
  (files : Files Index) :
  (forall p, In p pdf_paths -> file_exists files p = true) ->
  let built :=
    from_documents
      (split_documents (_load_pdfs_as_documents files pdf_paths
                        ++ _load_texts_as_documents files text_paths)) in
  (forall db,
     saved_index files = Some db -> force_rebuild = false ->
     bootstrap_rag split_documents from_documents pdf_paths text_paths
                   force_rebuild files
     = (files, Done db))
  /\ (saved_index files = None \/ force_rebuild = true ->
      snd (bootstrap_rag split_documents from_documents pdf_paths text_paths
                         force_rebuild files) = Done built
      /\ saved_index
           (fst (bootstrap_rag split_documents from_documents pdf_paths
                               text_paths force_rebuild files))
         = Some built).
Proof.
  intros Hall built. unfold bootstrap_rag.
  rewrite (find_missing_none _ _ Hall). split.
  - intros db -> ->. reflexivity.
  - intros [H|H]; rewrite H; [split; reflexivity|].
    destruct (saved_index files); split; reflexivity.
Qed.

(** X26.  [bootstrap_rag] loads what it saved: after a bootstrap that
    succeeded, a bootstrap without force_rebuild returns the same index and
    leaves the files as they are. *)
Theorem bootstrap_rag_idempotent pdf_paths text_paths force_rebuild
  (files : Files Index) (db : Index) :
  snd (bootstrap_rag split_documents from_documents pdf_paths text_paths
                     force_rebuild files) = Done db ->
  let files' :=
    fst (bootstrap_rag split_documents from_documents pdf_paths text_paths
                       force_rebuild files) in
  bootstrap_rag split_documents from_documents pdf_paths text_paths false
                files'
  = (files', Done db).
Proof.
  unfold bootstrap_rag.
  destruct (List.find _ pdf_paths) as [q|] eqn:E; [discriminate|].
  destruct (saved_index files) as [saved|] eqn:Es.
  - destruct force_rebuild; cbn [fst snd]; intros [= <-]; cbv zeta.
    + cbn [file_exists saved_index]. rewrite E. reflexivity.
    + rewrite E, Es. reflexivity.
  - cbn [fst snd]. intros [= <-]. cbv zeta.
    cbn [file_exists saved_index]. rewrite E. reflexivity.
Qed.


End Rag.

(** [Path.name] of a path is the part after its last slash. *)
Lemma until_slash_no_slash (s : pystr) : ~ In 47%N (until_slash s).
Proof.
  induction s as [|c r IH]; cbn [until_slash]; [auto|].
  destruct (c =? 47)%N eqn:E; [auto|].
  apply N.eqb_neq in E. cbn [In]. intuition.
Qed.

Lemma until_slash_app (a b : pystr) :
  ~ In 47%N a -> until_slash (a ++ 47%N :: b) = a.
Proof.
  induction a as [|c a IH]; intros H; cbn [app until_slash].
  - reflexivity.
  - cbn [In] in H. destruct (c =? 47)%N eqn:E.
    + apply N.eqb_eq in E. tauto.
    + rewrite IH by tauto. reflexivity.
Qed.

(** [path_name] takes the last component of a path: the name of
    [dir/name] is [name] when [name] holds no slash, whatever the
    directory; a path without slash is its own name. *)
Lemma path_name_last_component (dir name : pystr) :
  ~ In 47%N name ->
  path_name (dir ++ 47%N :: name) = name /\ path_name name = name.
Proof.
  intros H. unfold path_name. split.
  - rewrite rev_app_distr. cbn [rev]. rewrite <- app_assoc. cbn [app].
    rewrite until_slash_app by (rewrite <- in_rev; exact H).
    apply rev_involutive.
  - assert (E : until_slash (rev name) = rev name).
    { assert (Hr : ~ In 47%N (rev name)) by (rewrite <- in_rev; exact H).
      clear H. induction (rev name) as [|c r IH]; [reflexivity|].
      cbn [until_slash]. cbn [In] in Hr.
      destruct (c =? 47)%N eqn:E; [apply N.eqb_eq in E; tauto|].
      rewrite IH by tauto. reflexivity. }
    rewrite E. apply rev_involutive.
Qed.

End BootstrapProperties.

(** *** The bootstrap on concrete files *)

Module BootstrapExamples.

Import Bootstrap BootstrapProperties Examples.

Lemma bootstrap_db_keeps_rows_witness :
  table (fst (bootstrap_db (fun c : list nat => c) None false
                {| table := Some [1; 2; 3]%nat; indexes := [] |}))
  = Some [1; 2; 3]%nat.
Proof.
  apply (proj1 (bootstrap_db_keeps_rows nat (list nat) (fun c => c) None
                  {| table := Some [1; 2; 3]%nat; indexes := [] |}
                  [1; 2; 3]%nat eq_refl ltac:(discriminate))).
Defined.

Lemma bootstrap_db_missing_csv_witness :
  bootstrap_db (fun c : list nat => c) None true
               {| table := Some [1; 2; 3]%nat; indexes := [] |}
  = ({| table := Some []; indexes := [] |},
     FileNotFoundError DEFAULT_CSV_PATH).
Proof.
  apply (proj1 (bootstrap_db_missing_csv nat (list nat) (fun c => c) true
                  {| table := Some [1; 2; 3]%nat; indexes := [] |})).
  now left.
Defined.

Lemma bootstrap_db_indexes_witness :
  indexes (fst (bootstrap_db (fun c : list nat => c)
                  (Some [[1; 2]; [3]]%nat) false
                  {| table := None; indexes := [txt "idx_custom"] |}))
  = txt "idx_custom" :: INDEX_NAMES.
Proof.
  pose proof (bootstrap_db_indexes nat (list nat) (fun c => c)
                (Some [[1; 2]; [3]]%nat) false
                {| table := None; indexes := [txt "idx_custom"] |}
                eq_refl ltac:(repeat constructor; auto)) as H.
  cbv zeta in H. destruct H as (_ & _ & _). reflexivity.
Defined.

Lemma bootstrap_rag_missing_pdf_witness :
  exists q,
    bootstrap_rag (fun docs => docs) (@List.length Document)
                  [txt "data/raw/Bhatla.pdf"; txt "data/raw/missing.pdf"] []
                  false (files (Some 7%nat))
    = (files (Some 7%nat), FileNotFoundError q)
    /\ file_exists (files (Some 7%nat)) q = false.
Proof.
  destruct (bootstrap_rag_missing_pdf nat (fun docs => docs)
              (@List.length Document)
              [txt "data/raw/Bhatla.pdf"; txt "data/raw/missing.pdf"] []
              false (files (Some 7%nat)) "data/raw/missing.pdf"
              ltac:(cbn; auto) eq_refl)
    as (q & before & rest & H & _ & Hq & _).
  exists q. split; assumption.
Defined.

Lemma bootstrap_rag_load_or_build_witness :
  bootstrap_rag (fun docs => docs) (@List.length Document)
                [txt "data/raw/Bhatla.pdf"] [txt "data/raw/summary.md"]
                false (files (Some 7%nat))
  = (files (Some 7%nat), Done 7%nat)
  /\ snd (bootstrap_rag (fun docs => docs) (@List.length Document)
                        [txt "data/raw/Bhatla.pdf"]
                        [txt "data/raw/summary.md"] false (files None))
     = Done 2%nat.
Proof.
  split.
  - apply (proj1 (bootstrap_rag_load_or_build nat (fun docs => docs)
                    (@List.length Document) [txt "data/raw/Bhatla.pdf"]
                    [txt "data/raw/summary.md"] false (files (Some 7%nat))
                    ltac:(intros p [<-|[]]; reflexivity)));
      reflexivity.
  - apply (proj2 (bootstrap_rag_load_or_build nat (fun docs => docs)
                    (@List.length Document) [txt "data/raw/Bhatla.pdf"]
                    [txt "data/raw/summary.md"] false (files None)
                    ltac:(intros p [<-|[]]; reflexivity))).
    now left.
Defined.

Lemma bootstrap_rag_idempotent_witness :
  bootstrap_rag (fun docs => docs) (@List.length Document)
    [txt "data/raw/Bhatla.pdf"] [txt "data/raw/summary.md"] false
    (fst (bootstrap_rag (fun docs => docs) (@List.length Document)
            [txt "data/raw/Bhatla.pdf"] [txt "data/raw/summary.md"] true
            (files (Some 7%nat))))
  = (fst (bootstrap_rag (fun docs => docs) (@List.length Document)
            [txt "data/raw/Bhatla.pdf"] [txt "data/raw/summary.md"] true
            (files (Some 7%nat))),
     Done 2%nat).
Proof.
  apply (bootstrap_rag_idempotent nat (fun docs => docs)
           (@List.length Document) [txt "data/raw/Bhatla.pdf"]
           [txt "data/raw/summary.md"] true (files (Some 7%nat)) 2%nat).
  reflexivity.
Defined.


Lemma path_name_last_component_witness :
  path_name "data/raw/Bhatla.pdf" = txt "Bhatla.pdf".
Proof.
  apply (proj1 (path_name_last_component "data/raw" "Bhatla.pdf"
                  ltac:(vm_compute; intuition discriminate))).
Defined.

End BootstrapExamples.

(** * The decoder and the braces *)

Ltac break_match :=
  repeat match goal with
         | |- context [match ?x with _ => _ end] => destruct x
         end.

Lemma match_number_not_dict (s : pystr) (d : pydict) (rest : pystr) :
  Json.match_number s <> Some (PDict d, rest).
Proof. unfold Json.match_number. break_match; discriminate. Qed.

Lemma scan_atom_not_dict (s : pystr) (d : pydict) (rest : pystr) :
  Json.scan_atom s <> Some (PDict d, rest).
Proof.
  unfold Json.scan_atom.
  destruct (Json.strip_prefix "null" s); [discriminate|].
  destruct (Json.strip_prefix "true" s); [discriminate|].
  destruct (Json.strip_prefix "false" s); [discriminate|].
  destruct (Json.match_number s) as [[v r]|] eqn:E.
  - intros [= -> ->]. now apply match_number_not_dict in E.
  - break_match; discriminate.
Qed.

Lemma array_items_list (fuel : nat) (s : pystr) (items : list pyval)
  (v : pyval) (rest : pystr) :
  Json.array_items fuel s items = Some (v, rest) -> exists l, v = PList l.
Proof.
  revert s items. induction fuel as [|fuel IH]; intros s items;
    [discriminate|].
  cbn [Json.array_items].
  destruct (Json.scan_once fuel s) as [[value s1]|]; [|discriminate].
  destruct (Json.skip_ws s1) as [|c s2]; [discriminate|].
  destruct (c =? 93)%N; [intros [= <- _]; eauto|].
  destruct (c =? 44)%N; [apply IH|discriminate].
Qed.

Lemma scan_once_dict (fuel : nat) (s : pystr) (d : pydict) (rest : pystr) :
  Json.scan_once fuel s = Some (PDict d, rest) -> exists r, s = 123%N :: r.
Proof.
  destruct fuel as [|fuel]; [discriminate|].
  destruct s as [|c r]; [discriminate|]. cbn [Json.scan_once].
  destruct (c =? 34)%N.
  { destruct (Json.scanstring r []) as [[str r']|]; discriminate. }
  destruct (c =? 123)%N eqn:E.
  { apply N.eqb_eq in E. subst c. eauto. }
  destruct (c =? 91)%N.
  { destruct fuel as [|fuel]; [discriminate|]. cbn [Json.JSONArray].
    destruct (Json.skip_ws r) as [|c' r']; [discriminate|].
    destruct (c' =? 93)%N; [discriminate|].
    intros H. apply array_items_list in H. destruct H as [l H].
    discriminate H. }
  intros H. now apply scan_atom_not_dict in H.
Qed.

Lemma In_skip_ws (c : N) (s : pystr) : In c (Json.skip_ws s) -> In c s.
Proof.
  induction s as [|a s IH]; cbn [Json.skip_ws]; [auto|].
  destruct (Json.is_ws a); [right; auto|auto].
Qed.

Lemma loads_dict_brace (s : pystr) (d : pydict) :
  Json.loads s = Some (PDict d) -> In 123%N s.
Proof.
  unfold Json.loads.
  destruct (Json.scan_once _ _) as [[v rest]|] eqn:E; [|discriminate].
  destruct (Json.skip_ws rest); [|discriminate].
  intros [= ->]. apply scan_once_dict in E. destruct E as [r E].
  apply In_skip_ws. rewrite E. now left.
Qed.

Lemma find_absent_inv (c : N) (s : pystr) : ~ In c s -> find c s = -1.
Proof.
  induction s as [|x s IH]; cbn [find In]; [reflexivity|].
  intros H. rewrite IH by tauto.
  destruct (x =? c)%N eqn:E; [apply N.eqb_eq in E; tauto|reflexivity].
Qed.

(** X28.  [safe_json_loads] never returns an object for a text without an
    opening brace: no window is tried, and nothing else decodes to an
    object. *)
Theorem safe_json_loads_needs_brace (raw : pystr) :
  find 123 raw = -1 -> safe_json_loads raw = None.
Proof.
  intros H. apply find_absent in H.
  assert (Hs : ~ In 123%N (strip raw)).
  { intros Hin. apply H. unfold strip in Hin.
    apply In_rstrip in Hin. now apply In_lstrip in Hin. }
  unfold safe_json_loads.
  destruct (strip raw) as [|c r] eqn:E; [reflexivity|].
  destruct (Json.loads (c :: r)) as [v|] eqn:L.
  - destruct v; try reflexivity.
    apply loads_dict_brace in L. contradiction.
  - rewrite (find_absent_inv _ _ Hs). reflexivity.
Qed.

Lemma safe_json_loads_needs_brace_witness :
  safe_json_loads (dq "'route': 'db' }") = None.
Proof.
  apply safe_json_loads_needs_brace. vm_compute. reflexivity.
Defined.
